(** * glfont: glyph atlas builder and text layout

    A shallow embedding of [font.go] (Font, LoadFont, Printf, Width) and
    [truetype.go] (character, max, LoadTrueTypeFont).

    Conventions.
    - Go [int] (64 bit) values are [Z]; none of the sums formed here can
      leave the 64-bit range, so they are written without wrap-around.
    - Go [int32] values ([rune], [fixed.Int26_6]) are [Z] with the
      wrap-around of each arithmetic result written out ([wrap32]).
    - Go [float32] values are IEEE-754 binary32 numbers ([spec_float] at
      precision 24, emax 128); every operation is rounded on its own
      (no fused multiply-add, as the gc compiler does on amd64).
    - A run-time panic (index out of range, makeslice, explicit panic) is
      the outcome [Panic].
    - The freetype/truetype packages, the file system, the shader compiler
      and the GL driver are external: they appear as oracles.  Of the GL
      binding only [gl.Ptr] can stop a call: it panics on an empty slice. *)

From Stdlib Require Import ZArith List Lia Bool String Sorted.
From Stdlib Require Import Floats.SpecFloat.
Import ListNotations.
Local Open Scope Z_scope.

(** ** Machine numbers *)

Definition wrap32 (z : Z) : Z := (z + 2 ^ 31) mod 2 ^ 32 - 2 ^ 31.

Definition max_int32 : Z := 2 ^ 31 - 1.

Definition rune := Z.

Module F32.

Definition t := spec_float.

Definition prec : Z := 24.
Definition emax : Z := 128.

Definition zero : t := S754_zero false.

(** [float32(z)] for an integer [z]: round to nearest, ties to even. *)
Definition of_int (z : Z) : t := binary_normalize prec emax z 0 false.

Definition add : t -> t -> t := SFadd prec emax.
Definition sub : t -> t -> t := SFsub prec emax.
Definition mul : t -> t -> t := SFmul prec emax.
Definition div : t -> t -> t := SFdiv prec emax.

(** [a > b] *)
Definition gt (a b : t) : bool := SFltb b a.

(** [int(f)]: truncation toward zero.  Go leaves the conversion of an
    infinity or a NaN to the implementation; this embedding gives 0 there
    (the loader only converts finite values). *)
Definition to_int (f : t) : Z :=
  match f with
  | S754_finite s m e =>
      let v := if 0 <=? e then Z.pos m * 2 ^ e
               else Z.quot (Z.pos m) (2 ^ (- e)) in
      if s then - v else v
  | _ => 0
  end.

End F32.

(** ** Outcomes and errors *)

Inductive error :=
| Errorf (msg : string)          (* fmt.Errorf(msg) *)
| External (code : Z).           (* an error value of an external package *)

(** [NoNormalExit] is the outcome of [for ch := low; ch <= high; ch++]
    when [high] is the largest int32: the counter wraps, the condition
    never becomes false, and control can leave the loop only through an
    error return inside the body, or never.  No font is returned. *)
Inductive outcome (A : Type) :=
| Return (a : A)
| Panic
| NoNormalExit.
Arguments Return {A} a.
Arguments Panic {A}.
Arguments NoNormalExit {A}.

(** ** Data model (truetype.go, font.go) *)

Module character.
Record t := mk {
  x : Z; y : Z;
  width : Z;      (* glyph width *)
  height : Z;     (* glyph height *)
  advance : Z;    (* glyph advance *)
  bearingH : Z;   (* glyph bearing horizontal *)
  bearingV : Z    (* glyph bearing vertical *)
}.
End character.

Inductive Direction := LeftToRight | RightToLeft | TopToBottom.

Record color := mkColor { r : F32.t; g : F32.t; b : F32.t; a : F32.t }.

(** [fontChar] is a slice of pointers in the source; every element is a
    fresh, non-nil [character] that is never written after the build, so
    the slice is a list of values here. *)
Record Font := mkFont {
  fontChar : list character.t;
  vao : Z;
  vbo : Z;
  program : Z;
  textureID : Z;
  fcolor : color;
  atlasWidth : F32.t;
  atlasHeight : F32.t
}.

(** [type point [4]float32] *)
Definition point := (F32.t * F32.t * F32.t * F32.t)%type.

Definition SetColor (f : Font) (red green blue alpha : F32.t) : Font :=
  mkFont (fontChar f) (vao f) (vbo f) (program f) (textureID f)
         (mkColor red green blue alpha) (atlasWidth f) (atlasHeight f).

(** ** Text layout (font.go) *)

(** The GL calls [Printf] issues, in the order it issues them. *)
Inductive glcall :=
| Enable_BLEND
| BlendFunc_SRC_ALPHA_ONE_MINUS_SRC_ALPHA
| UseProgram (p : Z)
| Uniform4f_textColor (p : Z) (c : color)
| BindVertexArray (v : Z)
| ActiveTexture_TEXTURE0
| BindTexture_2D (t : Z)
| BindBuffer_ARRAY (b : Z)
| BufferData_ARRAY (size : Z) (data : list point)
| DrawArrays_TRIANGLES (first : Z) (count : Z)
| Disable_BLEND.

Definition lowChar : rune := 32.

(** [int(runeIndex)-int(lowChar) > len(f.fontChar) || runeIndex < lowChar] *)
Definition skip (f : Font) (runeIndex : rune) : bool :=
  (runeIndex - lowChar >? Z.of_nat (List.length (fontChar f)))
  || (runeIndex <? lowChar).

(** [f.fontChar[runeIndex-lowChar]]: [None] is the index-out-of-range
    panic.  Where the source evaluates it, [runeIndex] is an int32 that is
    at least [lowChar], so the int32 subtraction does not wrap and the
    index is not negative (lemma [index_no_wrap]). *)
Definition index (f : Font) (runeIndex : rune) : option character.t :=
  nth_error (fontChar f) (Z.to_nat (runeIndex - lowChar)).

(** The body of the loop of [Printf] for one retained rune: the six
    appended points and the new pen. *)
Definition Printf_glyph (f : Font) (x y scale : F32.t) (ch : character.t)
  : list point * F32.t :=
  let xpos := F32.add x (F32.mul (F32.of_int (character.bearingH ch)) scale) in
  let ypos := F32.sub y (F32.mul (F32.of_int (character.height ch - character.bearingV ch)) scale) in
  let w := F32.mul (F32.of_int (character.width ch)) scale in
  let h := F32.mul (F32.of_int (character.height ch)) scale in
  let x1 := xpos in
  let x2 := F32.add xpos w in
  let y1 := ypos in
  let y2 := F32.add ypos h in
  ([ (x1, y1, F32.div (F32.of_int (character.x ch)) (atlasWidth f),
              F32.div (F32.of_int (character.y ch)) (atlasHeight f));
     (x2, y1, F32.div (F32.of_int (character.x ch + character.width ch)) (atlasWidth f),
              F32.div (F32.of_int (character.y ch)) (atlasHeight f));
     (x1, y2, F32.div (F32.of_int (character.x ch)) (atlasWidth f),
              F32.div (F32.of_int (character.y ch + character.height ch)) (atlasHeight f));
     (x2, y1, F32.div (F32.of_int (character.x ch + character.width ch)) (atlasWidth f),
              F32.div (F32.of_int (character.y ch)) (atlasHeight f));
     (x1, y2, F32.div (F32.of_int (character.x ch)) (atlasWidth f),
              F32.div (F32.of_int (character.y ch + character.height ch)) (atlasHeight f));
     (x2, y2, F32.div (F32.of_int (character.x ch + character.width ch)) (atlasWidth f),
              F32.div (F32.of_int (character.y ch + character.height ch)) (atlasHeight f)) ],
   F32.add x (F32.mul (F32.of_int (Z.shiftr (character.advance ch) 6)) scale)).

(** [for i := range indices { ... }] of [Printf], threading the pen [x]
    and the slice [coords]. *)
Fixpoint Printf_loop (f : Font) (y scale : F32.t) (indices : list rune)
    (x : F32.t) (coords : list point) : outcome (F32.t * list point) :=
  match indices with
  | [] => Return (x, coords)
  | runeIndex :: rest =>
      if skip f runeIndex then Printf_loop f y scale rest x coords
      else
        match index f runeIndex with
        | None => Panic
        | Some ch =>
            let '(quad, x') := Printf_glyph f x y scale ch in
            Printf_loop f y scale rest x' (coords ++ quad)
        end
  end.

(** [Printf]; [indices] is [[]rune(fmt.Sprintf(fs, argv...))].  The result
    is the returned [error] ([None] is nil) and the GL calls made.
    [gl.Ptr(coords)], an argument of [gl.BufferData], takes the address of
    element 0 of the slice and panics when [coords] is empty; the GL calls
    themselves are taken to return. *)
Definition Printf (f : Font) (x y scale : F32.t) (indices : list rune)
  : outcome (option error) * list glcall :=
  if (List.length indices =? 0)%nat then (Return None, [])
  else
    let setup :=
      [ Enable_BLEND; BlendFunc_SRC_ALPHA_ONE_MINUS_SRC_ALPHA;
        UseProgram (program f); Uniform4f_textColor (program f) (fcolor f) ] in
    match Printf_loop f y scale indices x [] with
    | Return (_, []) =>
        (Panic,
         setup ++
         [ BindVertexArray (vao f); ActiveTexture_TEXTURE0;
           BindTexture_2D (textureID f); BindBuffer_ARRAY (vbo f) ])
    | Return (_, (_ :: _) as coords) =>
        (Return None,
         setup ++
         [ BindVertexArray (vao f); ActiveTexture_TEXTURE0;
           BindTexture_2D (textureID f); BindBuffer_ARRAY (vbo f);
           BufferData_ARRAY (Z.of_nat (List.length coords) * 16) coords;
           DrawArrays_TRIANGLES 0 (wrap32 (Z.of_nat (List.length coords)));
           BindVertexArray 0; BindTexture_2D 0; UseProgram 0; Disable_BLEND ])
    | Panic => (Panic, setup)
    | NoNormalExit => (NoNormalExit, setup)
    end.

(** The pen [x] when the loop of [Printf] ends. *)
Definition Printf_pen (f : Font) (x y scale : F32.t) (indices : list rune)
  : outcome F32.t :=
  match Printf_loop f y scale indices x [] with
  | Return (x', _) => Return x'
  | Panic => Panic
  | NoNormalExit => NoNormalExit
  end.

(** The loop of [Width], threading [width] and the lines written to the
    standard output by [fmt.Printf("%c %d\n", runeIndex, runeIndex)]. *)
Fixpoint Width_loop (f : Font) (scale : F32.t) (indices : list rune)
    (width : F32.t) (stdout : list rune) : outcome F32.t * list rune :=
  match indices with
  | [] => (Return width, stdout)
  | runeIndex :: rest =>
      if skip f runeIndex
      then Width_loop f scale rest width (stdout ++ [runeIndex])
      else
        match index f runeIndex with
        | None => (Panic, stdout)
        | Some ch =>
            Width_loop f scale rest
              (F32.add width
                 (F32.mul (F32.of_int (Z.shiftr (character.advance ch) 6)) scale))
              stdout
        end
  end.

Definition Width (f : Font) (scale : F32.t) (indices : list rune)
  : outcome F32.t * list rune :=
  if (List.length indices =? 0)%nat then (Return (F32.of_int 0), [])
  else Width_loop f scale indices F32.zero [].

(** ** Atlas builder (truetype.go) *)

(** [golang.org/x/image/math/fixed]: [Int26_6] is an int32. *)
Module fixed.
Record Point26_6 := Pt { X : Z; Y : Z }.
Record Rectangle26_6 := Rect { Min : Point26_6; Max : Point26_6 }.
End fixed.

(** One call of [c.DrawString(string(ch), pt)] on the shared image, with
    the clip rectangle [image.Rect(x, y, x+gw, y+gh)] set on the context
    and the dot [freetype.Pt(px, py)]. *)
Record drawcall := mkDraw {
  d_ch : rune;
  d_clip : Z * Z * Z * Z;
  d_pt : Z * Z
}.

(** What the builder uses of a parsed font [ttf] (packages truetype and
    freetype).  [GlyphBounds size ch] is [ttfFace.GlyphBounds(ch)] for the
    face made with [Size: float64(size)], 72 DPI and full hinting; [None]
    is [ok == false].  [Bounds] is [ttf.Bounds].  [DrawString size d] is
    the error of [c.DrawString] on a context of that font and size. *)
Record TTF := mkTTF {
  GlyphBounds : Z -> rune -> option (fixed.Rectangle26_6 * Z);
  Bounds : Z -> fixed.Rectangle26_6;
  DrawString : Z -> drawcall -> option error
}.

(** The world around the package: files, the font parser, the shader
    compiler and the names the GL driver hands out. *)
Record Env := mkEnv {
  os_Open : string -> error + Z;
  ioutil_ReadAll : Z -> error + list Z;
  truetype_Parse : list Z -> error + TTF;
  newProgram : Z -> error + Z;
  gl_GenTextures : Z;
  gl_GenVertexArrays : Z;
  gl_GenBuffers : Z
}.

(** [func max(a, b float32) float32] *)
Definition max (a b : F32.t) : F32.t := if F32.gt a b then a else b.

(** [int32((hi - lo) >> 6)] on [fixed.Int26_6] operands. *)
Definition extent (lo hi : Z) : Z := Z.shiftr (wrap32 (hi - lo)) 6.

Definition margin : Z := 2.

(** The code points [low, low+1, ..., high] the two loops visit (for
    [high] below the largest int32). *)
Definition rune_range (low high : rune) : list rune :=
  map (fun i => low + Z.of_nat i) (seq 0 (Z.to_nat (high - low + 1))).

(** First loop of [LoadTrueTypeFont]: the line height. *)
Fixpoint line_height_loop (ttf : TTF) (scale : Z) (chs : list rune)
    (lineHeight : F32.t) : error + F32.t :=
  match chs with
  | [] => inr lineHeight
  | ch :: rest =>
      match GlyphBounds ttf scale ch with
      | None => inl (Errorf "ttf face glyphBounds error")
      | Some (gBnd, _) =>
          let gh := extent (fixed.Y (fixed.Min gBnd)) (fixed.Y (fixed.Max gBnd)) in
          line_height_loop ttf scale rest (max lineHeight (F32.of_int gh))
      end
  end.

(** Bounds and size of the cell of one glyph: the glyph's own bounds, or
    the font's bounds when a dimension is zero, or 1 by 1. *)
Definition glyph_cell (ttf : TTF) (scale : Z) (gBnd : fixed.Rectangle26_6)
  : fixed.Rectangle26_6 * Z * Z :=
  let gh := extent (fixed.Y (fixed.Min gBnd)) (fixed.Y (fixed.Max gBnd)) in
  let gw := extent (fixed.X (fixed.Min gBnd)) (fixed.X (fixed.Max gBnd)) in
  if (gw =? 0) || (gh =? 0) then
    let gBnd := Bounds ttf scale in
    let gw := extent (fixed.X (fixed.Min gBnd)) (fixed.X (fixed.Max gBnd)) in
    let gh := extent (fixed.Y (fixed.Min gBnd)) (fixed.Y (fixed.Max gBnd)) in
    if (gw =? 0) || (gh =? 0) then (gBnd, 1, 1) else (gBnd, gw, gh)
  else (gBnd, gw, gh).

(** The cursor after a glyph of width [gw] was placed at [(x, y)]. *)
Definition next_cursor (atlasWidth lineHeight : F32.t) (x y gw : Z) : Z * Z :=
  let x := x + gw + margin in
  if x + gw + margin >? F32.to_int atlasWidth
  then (0, y + F32.to_int lineHeight + margin)
  else (x, y).

(** Second loop of [LoadTrueTypeFont], threading the cursor [(x, y)], the
    slice [f.fontChar] and the draws made on [rgba]. *)
Fixpoint glyph_loop (ttf : TTF) (scale : Z) (atlasWidth lineHeight : F32.t)
    (chs : list rune) (x y : Z) (fontChar : list character.t)
    (rgba : list drawcall) : (error + list character.t) * list drawcall :=
  match chs with
  | [] => (inr fontChar, rgba)
  | ch :: rest =>
      match GlyphBounds ttf scale ch with
      | None => (inl (Errorf "ttf face glyphBounds error"), rgba)
      | Some (gBnd, gAdv) =>
          let '(gBnd, gw, gh) := glyph_cell ttf scale gBnd in
          let gAscent := Z.shiftr (wrap32 (- fixed.Y (fixed.Min gBnd))) 6 in
          let gdescent := Z.shiftr (fixed.Y (fixed.Max gBnd)) 6 in
          let char :=
            character.mk x y gw gh gAdv
              (Z.shiftr (fixed.X (fixed.Min gBnd)) 6) gdescent in
          let clip := (x, y, x + gw, y + gh) in
          let px := 0 - Z.shiftr (fixed.X (fixed.Min gBnd)) 6 + x in
          let py := gAscent + y in
          let d := mkDraw ch clip (px, py) in
          let '(x', y') := next_cursor atlasWidth lineHeight x y gw in
          match DrawString ttf scale d with
          | Some err => (inl err, rgba ++ [d])
          | None =>
              glyph_loop ttf scale atlasWidth lineHeight rest x' y'
                (fontChar ++ [char]) (rgba ++ [d])
          end
      end
  end.

(** [LoadTrueTypeFont] with the draws made on the atlas image.  [r] is the
    reader.  The GL calls after the second loop do not fail and only give
    the font its texture, array and buffer names. *)
Definition LoadTrueTypeFont_run (env : Env) (program : Z) (r : Z)
    (scale : Z) (low high : rune) (dir : Direction)
  : outcome (Font + error) * list drawcall :=
  match ioutil_ReadAll env r with
  | inl err => (Return (inr err), [])
  | inr data =>
      match truetype_Parse env data with
      | inl err => (Return (inr err), [])
      | inr ttf =>
          (* make([]*character, 0, high-low+1) *)
          if wrap32 (wrap32 (high - low) + 1) <? 0 then (Panic, [])
          else if high =? max_int32 then (NoNormalExit, [])
          else
            let white := mkColor (F32.of_int 1) (F32.of_int 1) (F32.of_int 1) (F32.of_int 1) in
            let atlasWidth := F32.of_int 1024 in
            let atlasHeight := F32.of_int 1024 in
            match line_height_loop ttf scale (rune_range low high) F32.zero with
            | inl err => (Return (inr err), [])
            | inr lineHeight =>
                match glyph_loop ttf scale atlasWidth lineHeight
                        (rune_range low high) margin margin [] [] with
                | (inl err, rgba) => (Return (inr err), rgba)
                | (inr fontChar, rgba) =>
                    (Return (inl (mkFont fontChar (gl_GenVertexArrays env)
                                    (gl_GenBuffers env) program
                                    (gl_GenTextures env) white
                                    atlasWidth atlasHeight)),
                     rgba)
                end
            end
      end
  end.

Definition LoadTrueTypeFont (env : Env) (program : Z) (r : Z)
    (scale : Z) (low high : rune) (dir : Direction) : outcome (Font + error) :=
  fst (LoadTrueTypeFont_run env program r scale low high dir).

(** [LoadFont]: a failure of [newProgram] is [panic(err)]. *)
Definition LoadFont (env : Env) (file : string) (scale : Z)
    (windowWidth windowHeight : Z) (GLSLVersion : Z) : outcome (Font + error) :=
  match os_Open env file with
  | inl err => Return (inr err)
  | inr fd =>
      match newProgram env GLSLVersion with
      | inl _ => Panic
      | inr program => LoadTrueTypeFont env program fd scale 32 127 LeftToRight
      end
  end.

(** ** Specification-level vocabulary for the layout engine *)

Definition table_size (f : Font) : Z := Z.of_nat (List.length (fontChar f)).

(** The code points of the spec's range [32, 32 + tableSize). *)
Definition in_table (f : Font) (c : rune) : bool :=
  (lowChar <=? c) && (c <? lowChar + table_size f).

(** The one code point just past the table: [c - 32 = tableSize]. *)
Definition boundary (f : Font) : rune := lowChar + table_size f.

Definition has_boundary (f : Font) (text : list rune) : bool :=
  existsb (Z.eqb (boundary f)) text.

Definition no_glyph : character.t := character.mk 0 0 0 0 0 0 0.

(** The glyph entry of index [c - 32]. *)
Definition glyph_of (f : Font) (c : rune) : character.t :=
  nth (Z.to_nat (c - lowChar)) (fontChar f) no_glyph.

(** The glyphs the spec retains for a text, in input order. *)
Definition retained (f : Font) (text : list rune) : list character.t :=
  map (glyph_of f) (filter (in_table f) text).

(** The three ways the loops of [Printf] and [Width] treat a code point:
    skipped by the guard, looked up inside the table, or the boundary code
    point, which passes the guard and misses the table. *)
Variant rune_class (f : Font) (c : rune) : Prop :=
| class_skipped :
    skip f c = true -> in_table f c = false -> (boundary f =? c) = false ->
    rune_class f c
| class_inside ch :
    skip f c = false -> in_table f c = true -> (boundary f =? c) = false ->
    index f c = Some ch -> glyph_of f c = ch -> rune_class f c
| class_boundary :
    skip f c = false -> in_table f c = false -> (boundary f =? c) = true ->
    index f c = None -> rune_class f c.

(** [(advance >> 6) * scale] *)
Definition advance_px (scale : F32.t) (ch : character.t) : F32.t :=
  F32.mul (F32.of_int (Z.shiftr (character.advance ch) 6)) scale.

(** The pen after the glyphs [chs], starting from [pen]. *)
Definition pen_after (scale : F32.t) (chs : list character.t) (pen : F32.t) : F32.t :=
  fold_left F32.add (map (advance_px scale) chs) pen.

(** The spec's measure: the sum of the advances of the retained glyphs. *)
Definition measure_spec (f : Font) (scale : F32.t) (text : list rune) : F32.t :=
  pen_after scale (retained f text) F32.zero.

(** Two triangles over the rectangle [(xpos, ypos)-(xpos+w, ypos+h)], with
    the texture rectangle [(u0, v0)-(u1, v1)] on its corners. *)
Definition two_triangles (xpos ypos w h u0 v0 u1 v1 : F32.t) : list point :=
  let left := xpos in
  let right := F32.add xpos w in
  let bottom := ypos in
  let top := F32.add ypos h in
  [ (left, bottom, u0, v0); (right, bottom, u1, v0); (left, top, u0, v1);
    (right, bottom, u1, v0); (left, top, u0, v1); (right, top, u1, v1) ].

(** The quad of the spec for one glyph with the pen at [(penX, penY)]. *)
Definition quad_spec (f : Font) (penX penY scale : F32.t) (ch : character.t)
  : list point :=
  two_triangles
    (F32.add penX (F32.mul (F32.of_int (character.bearingH ch)) scale))
    (F32.sub penY
       (F32.mul (F32.of_int (character.height ch - character.bearingV ch)) scale))
    (F32.mul (F32.of_int (character.width ch)) scale)
    (F32.mul (F32.of_int (character.height ch)) scale)
    (F32.div (F32.of_int (character.x ch)) (atlasWidth f))
    (F32.div (F32.of_int (character.y ch)) (atlasHeight f))
    (F32.div (F32.of_int (character.x ch + character.width ch)) (atlasWidth f))
    (F32.div (F32.of_int (character.y ch + character.height ch)) (atlasHeight f)).

Fixpoint layout_spec (f : Font) (penX penY scale : F32.t)
    (chs : list character.t) : list point :=
  match chs with
  | [] => []
  | ch :: rest =>
      quad_spec f penX penY scale ch
      ++ layout_spec f (F32.add penX (advance_px scale ch)) penY scale rest
  end.

(** The texture coordinates of a vertex. *)
Definition uv (p : point) : F32.t * F32.t :=
  let '(_, _, u, v) := p in (u, v).


(** ** Specification-level vocabulary for the atlas builder *)

(** A rectangle of the font library is well formed when [Min <= Max] on
    both axes (package fixed); its extents then fit an [Int26_6]. *)
Definition rect_wfb (r : fixed.Rectangle26_6) : bool :=
  (fixed.X (fixed.Min r) <=? fixed.X (fixed.Max r))
  && (fixed.X (fixed.Max r) - fixed.X (fixed.Min r) <? 2 ^ 31)
  && (fixed.Y (fixed.Min r) <=? fixed.Y (fixed.Max r))
  && (fixed.Y (fixed.Max r) - fixed.Y (fixed.Min r) <? 2 ^ 31).

(** The font library reports well-formed rectangles for the glyphs of
    [chs] and for the font as a whole. *)
Definition face_wfb (ttf : TTF) (scale : Z) (chs : list rune) : bool :=
  forallb (fun ch => match GlyphBounds ttf scale ch with
                     | Some (gBnd, _) => rect_wfb gBnd
                     | None => true
                     end) chs
  && rect_wfb (Bounds ttf scale).

(** Pixel width and height of a rectangle in 26.6 units. *)
Definition pixel_size (r : fixed.Rectangle26_6) : Z * Z :=
  (extent (fixed.X (fixed.Min r)) (fixed.X (fixed.Max r)),
   extent (fixed.Y (fixed.Min r)) (fixed.Y (fixed.Max r))).

(** The degenerate-glyph fallback in the spec's words: the glyph's own
    size; if a dimension is zero, the size of the font's bounding box; if
    one of those is zero too, 1 by 1. *)
Definition cell_size_spec (ttf : TTF) (scale : Z) (gBnd : fixed.Rectangle26_6)
  : Z * Z :=
  let '(w0, h0) := pixel_size gBnd in
  if (w0 =? 0) || (h0 =? 0) then
    let '(bw, bh) := pixel_size (Bounds ttf scale) in
    if (bw =? 0) || (bh =? 0) then (1, 1) else (bw, bh)
  else (w0, h0).





(** The row cursor of the packing policy: [placed W L x y cs] when the
    cells [cs] are laid out from the cursor [(x, y)] in an atlas of width
    [W] with row pitch [L + margin]. *)
Inductive placed (W L : Z) : Z -> Z -> list character.t -> Prop :=
| placed_nil x y : placed W L x y []
| placed_stay x y c rest :
    character.x c = x -> character.y c = y ->
    x + character.width c + margin + character.width c + margin <= W ->
    placed W L (x + character.width c + margin) y rest ->
    placed W L x y (c :: rest)
| placed_wrap x y c rest :
    character.x c = x -> character.y c = y ->
    x + character.width c + margin + character.width c + margin > W ->
    placed W L 0 (y + L + margin) rest ->
    placed W L x y (c :: rest).



(** The cells of two glyphs do not overlap. *)
Definition disjoint (c1 c2 : character.t) : Prop :=
  character.x c1 + character.width c1 <= character.x c2
  \/ character.x c2 + character.width c2 <= character.x c1
  \/ character.y c1 + character.height c1 <= character.y c2
  \/ character.y c2 + character.height c2 <= character.y c1.


(** The table entry [c] is the one of code point [ch]: it carries the
    advance the face reports for [ch] and the cell size the fallback gives
    its bounds. *)
Definition entry_of (ttf : TTF) (scale : Z) (ch : rune) (c : character.t) : Prop :=
  exists gBnd gAdv,
    GlyphBounds ttf scale ch = Some (gBnd, gAdv)
    /\ character.advance c = gAdv
    /\ (character.width c, character.height c) = cell_size_spec ttf scale gBnd.

Definition positive_cell (c : character.t) : Prop :=
  0 < character.width c /\ 0 < character.height c.

(** ** Sample fonts *)

(** A font whose glyph [ch] is [fst (dims ch)] by [snd (dims ch)] pixels,
    sitting on the baseline, with advance [adv ch], and whose bounding box
    is [bbox] pixels. *)
Definition box (wh : Z * Z) : fixed.Rectangle26_6 :=
  fixed.Rect (fixed.Pt 0 (- (64 * snd wh))) (fixed.Pt (64 * fst wh) 0).

Definition box_ttf (dims : rune -> Z * Z) (bbox : Z * Z) (adv : rune -> Z) : TTF :=
  mkTTF (fun _ ch => Some (box (dims ch), adv ch))
        (fun _ => box bbox)
        (fun _ _ => None).

Definition env_of (ttf : TTF) : Env :=
  mkEnv (fun _ => inr 3) (fun _ => inr []) (fun _ => inr ttf)
        (fun _ => inr 1) 1 1 1.

Definition font_of (o : outcome (Font + error)) : Font :=
  match o with
  | Return (inl f) => f
  | _ => mkFont [] 0 0 0 0 (mkColor F32.zero F32.zero F32.zero F32.zero)
                F32.zero F32.zero
  end.

(** Glyphs of 20 by 30 pixels; 'A' advances 1920/64 and 'B' 1728/64. *)
Definition sample_ttf : TTF :=
  box_ttf (fun _ => (20, 30)) (40, 40)
          (fun ch => if ch =? 65 then 1920 else if ch =? 66 then 1728 else 1600).

Definition sample_font : Font :=
  font_of (LoadFont (env_of sample_ttf) "font.ttf" 48 800 600 330).

(** Glyphs of 200 by 200 pixels. *)
Definition large_ttf : TTF :=
  box_ttf (fun _ => (200, 200)) (200, 200) (fun _ => 12800).

(** Glyphs of 40 by 40 pixels, an empty space glyph, and a bounding box of
    60 by 60 pixels. *)
Definition spaced_ttf : TTF :=
  box_ttf (fun ch => if ch =? 32 then (0, 0) else (40, 40)) (60, 60)
          (fun _ => 2560).

(** An empty space glyph, and a font bounding box with [Max] below [Min]
    on both axes. *)
Definition inverted_ttf : TTF :=
  box_ttf (fun ch => if ch =? 32 then (0, 0) else (40, 40)) (-69, -69)
          (fun _ => 2560).

(** Glyphs 20 pixels wide, but an M of 40. *)
Definition wide_M_ttf : TTF :=
  box_ttf (fun ch => if ch =? 77 then (40, 30) else (20, 30)) (40, 40)
          (fun _ => 1600).

(** The glyphs of [sample_ttf], but no glyph for code point 127. *)
Definition holed_ttf : TTF :=
  mkTTF (fun _ ch => if ch =? 127 then None else Some (box (20, 30), 1600))
        (fun _ => box (40, 40))
        (fun _ _ => None).

Definition built (ttf : TTF) : Font :=
  font_of (LoadTrueTypeFont (env_of ttf) 1 3 48 32 127 LeftToRight).

(** ** Further vocabulary *)

(** The part of a text the loops reach: everything before the first
    boundary code point. *)
Fixpoint before_boundary (f : Font) (text : list rune) : list rune :=
  match text with
  | [] => []
  | c :: rest => if boundary f =? c then [] else c :: before_boundary f rest
  end.

(** The code points the guard lets through. *)
Definition kept (f : Font) (text : list rune) : list rune :=
  filter (fun c => negb (skip f c)) text.

(** The GL calls of [Printf] before its loop, and those after it for the
    vertices [coords]. *)
Definition setup_calls (f : Font) : list glcall :=
  [ Enable_BLEND; BlendFunc_SRC_ALPHA_ONE_MINUS_SRC_ALPHA;
    UseProgram (program f); Uniform4f_textColor (program f) (fcolor f) ].

(** The calls made after the loop and before [gl.Ptr(coords)]. *)
Definition bind_calls (f : Font) : list glcall :=
  [ BindVertexArray (vao f); ActiveTexture_TEXTURE0;
    BindTexture_2D (textureID f); BindBuffer_ARRAY (vbo f) ].

Definition draw_calls (f : Font) (coords : list point) : list glcall :=
  [ BindVertexArray (vao f); ActiveTexture_TEXTURE0;
    BindTexture_2D (textureID f); BindBuffer_ARRAY (vbo f);
    BufferData_ARRAY (Z.of_nat (List.length coords) * 16) coords;
    DrawArrays_TRIANGLES 0 (wrap32 (Z.of_nat (List.length coords)));
    BindVertexArray 0; BindTexture_2D 0; UseProgram 0; Disable_BLEND ].

(** A float32 that is a zero, a positive finite number or plus infinity. *)
Definition not_negative (v : F32.t) : Prop :=
  match v with
  | S754_zero _ => True
  | S754_finite false _ _ => True
  | S754_infinity false => True
  | _ => False
  end.

Definition white : color :=
  mkColor (F32.of_int 1) (F32.of_int 1) (F32.of_int 1) (F32.of_int 1).

(** The draw [d] is the one of the table entry [c]: clipped to the cell of
    [c], with the dot's x at the cell's left edge less the bearing. *)
Definition draw_of_cell (d : drawcall) (c : character.t) : Prop :=
  d_clip d = (character.x c, character.y c,
              character.x c + character.width c,
              character.y c + character.height c)
  /\ fst (d_pt d) = character.x c - character.bearingH c.

(** Every code point of [chs] has glyph bounds. *)
Definition all_bounded (ttf : TTF) (scale : Z) (chs : list rune) : bool :=
  forallb (fun ch => match GlyphBounds ttf scale ch with
                     | Some _ => true
                     | None => false
                     end) chs.

(** * Properties of the text layout engine *)

Section Layout.

Variable f : Font.

Lemma wrap32_small (z : Z) : - 2 ^ 31 <= z < 2 ^ 31 -> wrap32 z = z.
Proof.
  intros Hz. unfold wrap32.
  rewrite Z.mod_small by lia. lia.
Qed.

(** Where [Printf] and [Width] index the table, the int32 subtraction
    [runeIndex - lowChar] has not wrapped. *)
Lemma index_no_wrap (c : rune) :
  - 2 ^ 31 <= c < 2 ^ 31 -> skip f c = false ->
  wrap32 (c - lowChar) = c - lowChar /\ 0 <= c - lowChar.
Proof.
  unfold skip, lowChar. intros Hc Hs.
  apply orb_false_iff in Hs as [_ Hlo].
  apply Z.ltb_ge in Hlo.
  split; [apply wrap32_small|]; lia.
Qed.

Lemma classify (c : rune) : rune_class f c.
Proof.
  destruct (Z_lt_ge_dec c lowChar) as [Hlo | Hlo].
  - apply class_skipped; unfold skip, in_table, boundary, table_size, lowChar in *.
    + apply orb_true_iff. right. apply Z.ltb_lt. lia.
    + apply andb_false_iff. left. apply Z.leb_gt. lia.
    + apply Z.eqb_neq. lia.
  - destruct (Z_lt_ge_dec c (boundary f)) as [Hin | Hout].
    + assert (Hn : (Z.to_nat (c - lowChar) < List.length (fontChar f))%nat)
        by (unfold boundary, table_size, lowChar in *; lia).
      destruct (nth_error (fontChar f) (Z.to_nat (c - lowChar))) as [ch|] eqn:E.
      * apply (class_inside f c ch);
          unfold skip, in_table, boundary, table_size, lowChar in *.
        -- apply orb_false_iff. split; [rewrite Z.gtb_ltb; apply Z.ltb_ge | apply Z.ltb_ge]; lia.
        -- apply andb_true_iff. split; [apply Z.leb_le | apply Z.ltb_lt]; lia.
        -- apply Z.eqb_neq. lia.
        -- exact E.
        -- unfold glyph_of, lowChar. now apply nth_error_nth.
      * apply nth_error_None in E. lia.
    + destruct (Z.eq_dec c (boundary f)) as [-> | Hne].
      * apply class_boundary; unfold skip, in_table, index, boundary, table_size, lowChar.
        -- apply orb_false_iff. split; [rewrite Z.gtb_ltb; apply Z.ltb_ge | apply Z.ltb_ge]; lia.
        -- apply andb_false_iff. right. apply Z.ltb_ge. lia.
        -- apply Z.eqb_refl.
        -- apply nth_error_None. lia.
      * apply class_skipped; unfold skip, in_table, boundary, table_size, lowChar in *.
        -- apply orb_true_iff. left. rewrite Z.gtb_ltb; apply Z.ltb_lt. lia.
        -- apply andb_false_iff. right. apply Z.ltb_ge. lia.
        -- apply Z.eqb_neq. lia.
Qed.

(** The loop of [Width], run to its end. *)
Lemma Width_loop_spec (scale : F32.t) (text : list rune) :
  forall width stdout,
    fst (Width_loop f scale text width stdout)
    = if has_boundary f text then Panic
      else Return (pen_after scale (retained f text) width).
Proof.
  induction text as [| c rest IH]; intros width stdout.
  - reflexivity.
  - unfold has_boundary, retained in *. cbn [Width_loop existsb filter].
    destruct (classify c) as [Hs Hi Hb | ch Hs Hi Hb Hx Hg | Hs Hi Hb Hx];
      rewrite Hs, Hi, Hb; cbn [orb].
    + apply IH.
    + rewrite Hx, IH. cbn [map]. rewrite Hg. reflexivity.
    + rewrite Hx. reflexivity.
Qed.

(** The loop of [Printf], run to its end. *)
Lemma Printf_loop_spec (y scale : F32.t) (text : list rune) :
  forall x coords,
    Printf_loop f y scale text x coords
    = if has_boundary f text then Panic
      else Return (pen_after scale (retained f text) x,
                   coords ++ layout_spec f x y scale (retained f text)).
Proof.
  induction text as [| c rest IH]; intros x coords.
  - cbn. now rewrite app_nil_r.
  - unfold has_boundary, retained in *. cbn [Printf_loop existsb filter].
    destruct (classify c) as [Hs Hi Hb | ch Hs Hi Hb Hx Hg | Hs Hi Hb Hx];
      rewrite Hs, Hi, Hb; cbn [orb].
    + apply IH.
    + rewrite Hx. cbn [Printf_glyph]. rewrite IH.
      destruct (existsb (Z.eqb (boundary f)) rest); [reflexivity|].
      cbn [map layout_spec]. rewrite Hg, <- app_assoc. reflexivity.
    + rewrite Hx. reflexivity.
Qed.

Lemma has_boundary_app (pre post : list rune) :
  has_boundary f (pre ++ boundary f :: post) = true.
Proof.
  unfold has_boundary. rewrite existsb_app. cbn [existsb].
  rewrite Z.eqb_refl. now rewrite orb_true_r.
Qed.

(** Code points strictly outside the table are passed over by both
    loops: the state is the one of the rest of the text ([Width] also
    writes the code point to the standard output). *)
Lemma skipped_rune (c : rune) (rest : list rune) :
  c < 32 \/ c - 32 > table_size f ->
  (forall y scale x coords,
      Printf_loop f y scale (c :: rest) x coords
      = Printf_loop f y scale rest x coords)
  /\ (forall scale width stdout,
         Width_loop f scale (c :: rest) width stdout
         = Width_loop f scale rest width (stdout ++ [c])).
Proof.
  intros Hc.
  assert (Hs : skip f c = true).
  { unfold skip, table_size, lowChar in *. apply orb_true_iff.
    destruct Hc; [right; apply Z.ltb_lt | left; rewrite Z.gtb_ltb; apply Z.ltb_lt]; lia. }
  split; intros; cbn [Printf_loop Width_loop]; now rewrite Hs.
Qed.

Lemma layout_spec_length (x y scale : F32.t) (chs : list character.t) :
  List.length (layout_spec f x y scale chs) = (6 * List.length chs)%nat.
Proof.
  revert x. induction chs as [| ch rest IH]; intros x.
  - reflexivity.
  - cbn [layout_spec]. rewrite length_app, IH. cbn [quad_spec two_triangles List.length]. lia.
Qed.

Lemma layout_spec_uv (x y scale x' y' scale' : F32.t) (chs : list character.t) :
  map uv (layout_spec f x y scale chs) = map uv (layout_spec f x' y' scale' chs).
Proof.
  revert x x'. induction chs as [| ch rest IH]; intros x x'.
  - reflexivity.
  - cbn [layout_spec]. rewrite !map_app.
    rewrite (IH (F32.add x (advance_px scale ch)) (F32.add x' (advance_px scale' ch))).
    reflexivity.
Qed.

End Layout.

(** ** Claims about [Printf] and [Width] *)

(** C1 (evaluation at the boundary): a text that contains the code point
    [c] with [c - 32 = tableSize] is not skipped there: the guard lets it
    through, the table lookup is out of range, and both [Printf] and
    [Width] end in a panic, whatever precedes or follows it. *)
Theorem boundary_rune_panics (f : Font) (x y scale : F32.t) (pre post : list rune) :
  skip f (boundary f) = false
  /\ index f (boundary f) = None
  /\ fst (Printf f x y scale (pre ++ boundary f :: post)) = Panic
  /\ fst (Width f scale (pre ++ boundary f :: post)) = Panic.
Proof.
  assert (Hlen : (List.length (pre ++ boundary f :: post) =? 0)%nat = false).
  { rewrite length_app. cbn [List.length]. apply Nat.eqb_neq. lia. }
  destruct (classify f (boundary f)) as [_ _ Hb | ch _ _ Hb _ _ | Hs _ _ Hx];
    try (rewrite Z.eqb_refl in Hb; discriminate).
  repeat split; trivial.
  - unfold Printf. rewrite Hlen, Printf_loop_spec, has_boundary_app. reflexivity.
  - unfold Width. rewrite Hlen, Width_loop_spec, has_boundary_app. reflexivity.
Qed.



(** C4 (evaluation on every text): [Width] returns the sum of
    [(advance >> 6) * scale] over the code points in [32, 32 + tableSize),
    each with the advance of glyph [c - 32], unless the text contains the
    code point [32 + tableSize], on which it panics instead of adding
    zero. *)
Theorem Width_sum_or_panic (f : Font) (scale : F32.t) (text : list rune) :
  fst (Width f scale text)
  = if has_boundary f text then Panic else Return (measure_spec f scale text).
Proof.
  unfold Width, measure_spec. destruct text as [| c rest]; [reflexivity|].
  cbn [List.length Nat.eqb]. apply Width_loop_spec.
Qed.

(** The scenario of the spec: with advances 1920 and 1728 for A and B,
    the width of AB at scale 1 is 30 + 27 = 57. *)
Example Width_AB : fst (Width sample_font (F32.of_int 1) [65; 66]) = Return (F32.of_int 57).
Proof. vm_compute. reflexivity. Qed.

(** C8: on a text without the boundary code point the loop of [Printf]
    returns, for the retained glyphs in input order, the quads of the spec:
    six vertices per glyph, two triangles over
    [(xpos, ypos)-(xpos + w, ypos + h)] at the running pen, with texture
    coordinates that are the corners of the atlas cell over the atlas size;
    these do not depend on the scale or on the pen. *)
Theorem Printf_emits_quads (f : Font) (x y scale : F32.t) (text : list rune) :
  Printf_loop f y scale text x []
  = (if has_boundary f text then Panic
     else Return (pen_after scale (retained f text) x,
                  layout_spec f x y scale (retained f text)))
  /\ List.length (layout_spec f x y scale (retained f text))
     = (6 * List.length (retained f text))%nat
  /\ forall x' y' scale',
      map uv (layout_spec f x' y' scale' (retained f text))
      = map uv (layout_spec f x y scale (retained f text)).
Proof.
  split; [apply Printf_loop_spec|].
  split; [apply layout_spec_length|].
  intros. apply layout_spec_uv.
Qed.

(** C9: on the empty text [Width] returns 0, and [Printf] returns nil
    without emitting a vertex or making any GL call. *)
Theorem empty_text_draws_nothing (f : Font) (x y scale : F32.t) :
  Width f scale [] = (Return F32.zero, [])
  /\ Printf f x y scale [] = (Return None, [])
  /\ Printf_loop f y scale [] x [] = Return (x, []).
Proof. repeat split. Qed.

(** C10: whenever [Printf] returns, the error it returns is nil. *)
Theorem Printf_returns_nil (f : Font) (x y scale : F32.t) (text : list rune)
    (e : option error) :
  fst (Printf f x y scale text) = Return e -> e = None.
Proof.
  unfold Printf. destruct (List.length text =? 0)%nat.
  - cbn. congruence.
  - destruct (Printf_loop f y scale text x []) as [[pen [| p coords]] | |];
      cbn; congruence.
Qed.

Lemma Printf_returns_nil_witness :
  fst (Printf sample_font F32.zero F32.zero (F32.of_int 1) [65; 66]) = Return None
  /\ @None error = None.
Proof.
  split.
  - vm_compute. reflexivity.
  - apply (Printf_returns_nil sample_font F32.zero F32.zero (F32.of_int 1) [65; 66]).
    vm_compute. reflexivity.
Defined.

(** * Properties of the atlas builder *)

Section Builder.

Variable ttf : TTF.
Variable scale : Z.

Lemma extent_nonneg (lo hi : Z) :
  lo <= hi -> hi - lo < 2 ^ 31 -> 0 <= extent lo hi.
Proof.
  intros H1 H2. unfold extent.
  rewrite wrap32_small by lia. apply Z.shiftr_nonneg. lia.
Qed.

Lemma pixel_size_nonneg (r : fixed.Rectangle26_6) :
  rect_wfb r = true -> 0 <= fst (pixel_size r) /\ 0 <= snd (pixel_size r).
Proof.
  unfold rect_wfb. intros H.
  repeat (apply andb_true_iff in H as [H ?]).
  split; apply extent_nonneg; lia.
Qed.

(** The fallback leaves no empty cell when the rectangles are well
    formed. *)
Lemma cell_size_positive (gBnd : fixed.Rectangle26_6) :
  rect_wfb gBnd = true -> rect_wfb (Bounds ttf scale) = true ->
  0 < fst (cell_size_spec ttf scale gBnd) /\ 0 < snd (cell_size_spec ttf scale gBnd).
Proof.
  intros Hg Hb. unfold cell_size_spec.
  destruct (pixel_size_nonneg _ Hg) as [Hw0 Hh0].
  destruct (pixel_size_nonneg _ Hb) as [Hbw Hbh].
  destruct (pixel_size gBnd) as [w0 h0].
  destruct (pixel_size (Bounds ttf scale)) as [bw bh].
  cbn [fst snd] in *.
  destruct ((w0 =? 0) || (h0 =? 0)) eqn:E0.
  - destruct ((bw =? 0) || (bh =? 0)) eqn:E1; cbn [fst snd]; [lia|].
    apply orb_false_iff in E1 as [E1 E2].
    apply Z.eqb_neq in E1, E2. lia.
  - apply orb_false_iff in E0 as [E1 E2].
    apply Z.eqb_neq in E1, E2. cbn [fst snd]. lia.
Qed.

(** The code computes the cell size of the spec. *)
Lemma glyph_cell_size (gBnd : fixed.Rectangle26_6) :
  (snd (fst (glyph_cell ttf scale gBnd)), snd (glyph_cell ttf scale gBnd))
  = cell_size_spec ttf scale gBnd.
Proof.
  unfold glyph_cell, cell_size_spec, pixel_size.
  destruct ((_ =? 0) || (_ =? 0)); [|reflexivity].
  destruct ((_ =? 0) || (_ =? 0)); reflexivity.
Qed.

Variables atlasW lineHeight : F32.t.

(** The second loop, run to its end: it appends one entry per code
    point, in order, and places the entries with the row cursor. *)
Lemma glyph_loop_spec (chs : list rune) :
  forall x y acc rgba table rgba',
    glyph_loop ttf scale atlasW lineHeight chs x y acc rgba = (inr table, rgba') ->
    exists cells,
      table = acc ++ cells
      /\ Forall2 (entry_of ttf scale) chs cells
      /\ placed (F32.to_int atlasW) (F32.to_int lineHeight) x y cells.
Proof.
  induction chs as [| ch rest IH]; intros x y acc rgba table rgba' H.
  - cbn in H. inversion H; subst. exists []. rewrite app_nil_r.
    split; [reflexivity | split; constructor].
  - cbn [glyph_loop] in H.
    destruct (GlyphBounds ttf scale ch) as [[gBnd gAdv]|] eqn:EB; [|discriminate].
    pose proof (glyph_cell_size gBnd) as Hsize.
    destruct (glyph_cell ttf scale gBnd) as [[gB gw] gh].
    cbn [fst snd] in Hsize.
    unfold next_cursor in H.
    set (c := character.mk x y gw gh gAdv _ _) in H.
    assert (Hc : entry_of ttf scale ch c) by (exists gBnd, gAdv; auto).
    destruct (x + gw + margin + gw + margin >? F32.to_int atlasW) eqn:EW;
      destruct (DrawString ttf scale _); try discriminate;
      apply IH in H as (cells & -> & HF & HP);
      exists (c :: cells); rewrite <- app_assoc;
      (split; [reflexivity | split; [now constructor |]]).
    + apply placed_wrap; trivial. cbn. rewrite Z.gtb_ltb in EW.
      apply Z.ltb_lt in EW. lia.
    + apply placed_stay; trivial. cbn. rewrite Z.gtb_ltb in EW.
      apply Z.ltb_ge in EW. lia.
Qed.

End Builder.

Section Packing.

Variables W L : Z.

Lemma placed_head (x y : Z) (c : character.t) (rest : list character.t) :
  placed W L x y (c :: rest) -> character.x c = x /\ character.y c = y.
Proof. intros H. inversion H; subst; auto. Qed.


Hypothesis pitch_positive : 0 < L + margin.



End Packing.

(** What a successful [LoadTrueTypeFont] has done: both loops ran to
    their ends over [low .. high], the first giving the line height the
    second packs with. *)
Lemma LoadTrueTypeFont_built (env : Env) (program r scale : Z) (low high : rune)
    (dir : Direction) (data : list Z) (ttf : TTF) (f : Font) :
  ioutil_ReadAll env r = inr data ->
  truetype_Parse env data = inr ttf ->
  LoadTrueTypeFont env program r scale low high dir = Return (inl f) ->
  exists lineHeight,
    line_height_loop ttf scale (rune_range low high) F32.zero = inr lineHeight
    /\ Forall2 (entry_of ttf scale) (rune_range low high) (fontChar f)
    /\ placed 1024 (F32.to_int lineHeight) margin margin (fontChar f)
    /\ atlasWidth f = F32.of_int 1024 /\ atlasHeight f = F32.of_int 1024.
Proof.
  intros HR HP H. unfold LoadTrueTypeFont, LoadTrueTypeFont_run in H.
  rewrite HR, HP in H.
  destruct (wrap32 (wrap32 (high - low) + 1) <? 0); [discriminate|].
  destruct (high =? max_int32); [discriminate|].
  destruct (line_height_loop ttf scale (rune_range low high) F32.zero)
    as [err | lineHeight]; [discriminate|].
  destruct (glyph_loop ttf scale (F32.of_int 1024) lineHeight
              (rune_range low high) margin margin [] [])
    as [[err | table] rgba] eqn:EG; cbn [fst] in H; [discriminate|].
  inversion H; subst f; clear H. cbn [fontChar atlasWidth atlasHeight].
  apply glyph_loop_spec in EG as (cells & -> & HF & HPl).
  exists lineHeight. cbn [app]. repeat split; trivial.
Qed.

Lemma rune_range_length (low high : rune) :
  List.length (rune_range low high) = Z.to_nat (high - low + 1).
Proof. unfold rune_range. now rewrite length_map, length_seq. Qed.

Lemma rune_range_In (low high c : rune) :
  In c (rune_range low high) <-> low <= c <= high.
Proof.
  unfold rune_range. rewrite in_map_iff. split.
  - intros (i & <- & Hi). apply in_seq in Hi. lia.
  - intros Hc. exists (Z.to_nat (c - low)). split; [lia|].
    apply in_seq. lia.
Qed.

(** The draws on the atlas image come after the first loop has ended:
    when a draw was made, the line height was already computed. *)
Lemma draws_follow_line_height (env : Env) (program r scale : Z) (low high : rune)
    (dir : Direction) (data : list Z) (ttf : TTF) :
  ioutil_ReadAll env r = inr data ->
  truetype_Parse env data = inr ttf ->
  snd (LoadTrueTypeFont_run env program r scale low high dir) = []
  \/ exists lineHeight,
      line_height_loop ttf scale (rune_range low high) F32.zero = inr lineHeight.
Proof.
  intros HR HP. unfold LoadTrueTypeFont_run. rewrite HR, HP.
  destruct (wrap32 (wrap32 (high - low) + 1) <? 0); [now left|].
  destruct (high =? max_int32); [now left|].
  destruct (line_height_loop ttf scale (rune_range low high) F32.zero)
    as [err | lineHeight]; [now left|].
  right. now exists lineHeight.
Qed.

(** ** Claims about [LoadFont] and [LoadTrueTypeFont] *)

(** C2 (as stated, refuted): the table [LoadFont] builds for the sample
    font has 96 entries, not the 95 of the code points 32 to 126. *)
Lemma LoadFont_table_is_not_32_to_126 :
  ~ (forall env file scale windowWidth windowHeight GLSLVersion f,
        LoadFont env file scale windowWidth windowHeight GLSLVersion = Return (inl f) ->
        table_size f = 126 - 32 + 1).
Proof.
  intros H.
  specialize (H (env_of sample_ttf) "font.ttf"%string 48 800 600 330 sample_font).
  assert (E : table_size sample_font = 96) by (vm_compute; reflexivity).
  rewrite E in H. discriminate H. vm_compute. reflexivity.
Qed.

(** C2 (amended): [LoadFont] builds the font over the code points 32 to
    127 inclusive: the table has 96 entries, and entry [i] is the glyph of
    code point [32 + i] of the font read from the file. *)
Theorem LoadFont_covers_32_to_127 (env : Env) (file : string)
    (scale windowWidth windowHeight GLSLVersion : Z) (f : Font) :
  LoadFont env file scale windowWidth windowHeight GLSLVersion = Return (inl f) ->
  exists fd data ttf program,
    os_Open env file = inr fd
    /\ ioutil_ReadAll env fd = inr data
    /\ truetype_Parse env data = inr ttf
    /\ LoadTrueTypeFont env program fd scale 32 127 LeftToRight = Return (inl f)
    /\ table_size f = 127 - 32 + 1
    /\ Forall2 (entry_of ttf scale) (rune_range 32 127) (fontChar f)
    /\ forall c, In c (rune_range 32 127) <-> 32 <= c <= 127.
Proof.
  unfold LoadFont. intros H.
  destruct (os_Open env file) as [err | fd] eqn:HO; [discriminate|].
  destruct (newProgram env GLSLVersion) as [err | program]; [discriminate|].
  destruct (ioutil_ReadAll env fd) as [err | data] eqn:HR.
  { unfold LoadTrueTypeFont, LoadTrueTypeFont_run in H. rewrite HR in H. discriminate. }
  destruct (truetype_Parse env data) as [err | ttf] eqn:HP.
  { unfold LoadTrueTypeFont, LoadTrueTypeFont_run in H. rewrite HR, HP in H. discriminate. }
  destruct (LoadTrueTypeFont_built _ _ _ _ _ _ _ _ _ _ HR HP H) as (lh & _ & HF & _).
  exists fd, data, ttf, program.
  do 4 (split; [first [reflexivity | assumption]|]).
  split; [| split; [exact HF | intros c; apply rune_range_In]].
  unfold table_size. rewrite <- (Forall2_length HF), rune_range_length. reflexivity.
Qed.

Lemma LoadFont_covers_32_to_127_witness :
  table_size sample_font = 96.
Proof.
  destruct (LoadFont_covers_32_to_127 (env_of sample_ttf) "font.ttf" 48 800 600 330
              sample_font) as (fd & data & ttf & program & _ & _ & _ & _ & E & _).
  - vm_compute. reflexivity.
  - exact E.
Defined.

Lemma entries_positive (ttf : TTF) (scale : Z) (chs : list rune)
    (cells : list character.t) :
  face_wfb ttf scale chs = true ->
  Forall2 (entry_of ttf scale) chs cells ->
  Forall positive_cell cells.
Proof.
  unfold face_wfb. intros Hwf HF.
  apply andb_true_iff in Hwf as [Hg Hb].
  induction HF as [| ch c chs cells (gBnd & gAdv & EB & _ & Hsize) HF IH];
    constructor.
  - cbn [forallb] in Hg. apply andb_true_iff in Hg as [Hg _].
    rewrite EB in Hg.
    destruct (cell_size_positive ttf scale gBnd Hg Hb) as [Hw Hh].
    rewrite <- Hsize in Hw, Hh. now split.
  - apply IH. cbn [forallb] in Hg. now apply andb_true_iff in Hg as [_ Hg].
Qed.


(** A cell that took the fallback can be taller than the row pitch: the
    space of [spaced_ttf] is 60 high on rows 42 apart, and overlaps the
    first cell of the second row. *)
Example fallback_cell_overlaps_next_row :
  exists c1 c2,
    nth_error (fontChar (built spaced_ttf)) 0 = Some c1
    /\ nth_error (fontChar (built spaced_ttf)) 23 = Some c2
    /\ ~ disjoint c1 c2.
Proof.
  exists (character.mk 2 2 60 60 2560 0 0), (character.mk 0 44 40 40 2560 0 0).
  split; [vm_compute; reflexivity|]. split; [vm_compute; reflexivity|].
  unfold disjoint. cbn. lia.
Qed.

(** C6 (as stated, refuted): the fallback tests the dimensions against 0
    only.  With an empty space glyph and a font bounding box whose [Max]
    lies 69 pixels below [Min] on both axes, the build succeeds and the
    space is recorded with width -69 and height -69. *)
Lemma cell_size_may_be_negative :
  ~ (forall env program r scale low high dir f,
        LoadTrueTypeFont env program r scale low high dir = Return (inl f) ->
        Forall positive_cell (fontChar f)).
Proof.
  intros H.
  specialize (H (env_of inverted_ttf) 1 3 48 32 127 LeftToRight (built inverted_ttf)).
  assert (E : nth_error (fontChar (built inverted_ttf)) 0
              = Some (character.mk 2 2 (-69) (-69) 2560 0 0))
    by (vm_compute; reflexivity).
  rewrite Forall_forall in H.
  destruct (H ltac:(vm_compute; reflexivity) _ (nth_error_In _ _ E)) as [Hw _].
  cbn in Hw. lia.
Qed.

(** C6 (amended): in a font built from well-formed bounds (every rectangle
    the font library reports has [Min <= Max]) every table entry has
    width > 0 and height > 0; entry by entry, the size is the glyph's own
    size, or the size of the font's bounding box when one of the glyph's
    dimensions is zero, or 1 by 1 when one of those is zero too. *)
Theorem glyph_cells_are_positive (env : Env) (program r scale : Z) (low high : rune)
    (dir : Direction) (data : list Z) (ttf : TTF) (f : Font) :
  face_wfb ttf scale (rune_range low high) = true ->
  ioutil_ReadAll env r = inr data ->
  truetype_Parse env data = inr ttf ->
  LoadTrueTypeFont env program r scale low high dir = Return (inl f) ->
  Forall positive_cell (fontChar f)
  /\ Forall2 (entry_of ttf scale) (rune_range low high) (fontChar f).
Proof.
  intros Hwf HR HP H.
  destruct (LoadTrueTypeFont_built _ _ _ _ _ _ _ _ _ _ HR HP H) as (lh & _ & HF & _).
  split; [eapply entries_positive; eauto | exact HF].
Qed.

Lemma glyph_cells_are_positive_witness :
  Forall positive_cell (fontChar (built spaced_ttf))
  /\ Forall2 (entry_of spaced_ttf 48) (rune_range 32 127) (fontChar (built spaced_ttf)).
Proof.
  apply (glyph_cells_are_positive (env_of spaced_ttf) 1 3 48 32 127 LeftToRight []
           spaced_ttf (built spaced_ttf));
    vm_compute; reflexivity.
Defined.



(** * Further properties of the text layout engine *)

Section LayoutComposition.

Variable f : Font.

Lemma Width_result (scale : F32.t) (text : list rune) :
  fst (Width f scale text)
  = if has_boundary f text then Panic
    else Return (pen_after scale (retained f text) F32.zero).
Proof.
  unfold Width. destruct text as [| c rest]; [reflexivity|].
  cbn [List.length Nat.eqb]. apply Width_loop_spec.
Qed.

Lemma Printf_pen_result (x y scale : F32.t) (text : list rune) :
  Printf_pen f x y scale text
  = if has_boundary f text then Panic
    else Return (pen_after scale (retained f text) x).
Proof.
  unfold Printf_pen. rewrite Printf_loop_spec.
  now destruct (has_boundary f text).
Qed.

Lemma has_boundary_concat (t1 t2 : list rune) :
  has_boundary f (t1 ++ t2) = has_boundary f t1 || has_boundary f t2.
Proof. apply existsb_app. Qed.

Lemma retained_concat (t1 t2 : list rune) :
  retained f (t1 ++ t2) = retained f t1 ++ retained f t2.
Proof. unfold retained. now rewrite filter_app, map_app. Qed.

Lemma pen_after_concat (scale pen : F32.t) (c1 c2 : list character.t) :
  pen_after scale (c1 ++ c2) pen = pen_after scale c2 (pen_after scale c1 pen).
Proof. unfold pen_after. now rewrite map_app, fold_left_app. Qed.

(** Drawing a text in two pieces: the loop of [Printf] on [t1 ++ t2] is
    its run on [t1] followed by its run on [t2] from the pen and the
    vertices the first run left; a panic in the first piece is the panic
    of the whole. *)
Theorem Printf_loop_concat (y scale : F32.t) (t1 t2 : list rune) :
  forall x coords,
    Printf_loop f y scale (t1 ++ t2) x coords
    = match Printf_loop f y scale t1 x coords with
      | Return (x', coords') => Printf_loop f y scale t2 x' coords'
      | Panic => Panic
      | NoNormalExit => NoNormalExit
      end.
Proof.
  induction t1 as [| c rest IH]; intros x coords.
  - reflexivity.
  - cbn [app Printf_loop].
    destruct (skip f c); [apply IH|].
    destruct (index f c) as [ch|]; [|reflexivity].
    destruct (Printf_glyph f x y scale ch) as [quad x']. apply IH.
Qed.

(** Measuring a text in two pieces: [Width] of [t1 ++ t2] is the pen
    [Printf] reaches on [t2] when it starts at x = [Width] of [t1]. *)
Theorem Width_concat (y scale : F32.t) (t1 t2 : list rune) :
  fst (Width f scale (t1 ++ t2))
  = match fst (Width f scale t1) with
    | Return w => Printf_pen f w y scale t2
    | Panic => Panic
    | NoNormalExit => NoNormalExit
    end.
Proof.
  rewrite !Width_result, has_boundary_concat.
  destruct (has_boundary f t1); [reflexivity|].
  rewrite Printf_pen_result, retained_concat, pen_after_concat. reflexivity.
Qed.

Lemma kept_boundary (text : list rune) :
  has_boundary f (kept f text) = has_boundary f text.
Proof.
  unfold has_boundary, kept.
  induction text as [| c rest IH]; [reflexivity|].
  cbn [filter existsb].
  destruct (classify f c) as [Hs Hi Hb | ch Hs Hi Hb Hx Hg | Hs Hi Hb Hx];
    rewrite Hs; cbn [negb existsb]; rewrite Hb, IH; reflexivity.
Qed.

Lemma kept_retained (text : list rune) :
  retained f (kept f text) = retained f text.
Proof.
  unfold retained, kept.
  induction text as [| c rest IH]; [reflexivity|].
  cbn [filter].
  destruct (classify f c) as [Hs Hi Hb | ch Hs Hi Hb Hx Hg | Hs Hi Hb Hx];
    rewrite Hs; cbn [negb filter]; rewrite Hi; cbn [map]; now rewrite IH.
Qed.

(** The code points the guard skips (below 32, or more than the table
    size above 32) leave no trace in the result: deleting them from the
    text changes neither the value of [Width] nor the pen and vertices of
    the loop of [Printf]. *)
Theorem skipped_runes_do_not_matter (scale : F32.t) (text : list rune) :
  fst (Width f scale (kept f text)) = fst (Width f scale text)
  /\ forall x y coords,
      Printf_loop f y scale (kept f text) x coords
      = Printf_loop f y scale text x coords.
Proof.
  split.
  - now rewrite !Width_result, kept_boundary, kept_retained.
  - intros. now rewrite !Printf_loop_spec, kept_boundary, kept_retained.
Qed.

Lemma Width_loop_stdout (scale : F32.t) (text : list rune) :
  forall width stdout,
    snd (Width_loop f scale text width stdout)
    = stdout ++ filter (skip f) (before_boundary f text).
Proof.
  induction text as [| c rest IH]; intros width stdout.
  - cbn. now rewrite app_nil_r.
  - cbn [Width_loop before_boundary].
    destruct (classify f c) as [Hs Hi Hb | ch Hs Hi Hb Hx Hg | Hs Hi Hb Hx];
      rewrite Hs, Hb.
    + rewrite IH. cbn [filter]. rewrite Hs, <- app_assoc. reflexivity.
    + rewrite Hx, IH. cbn [filter]. now rewrite Hs.
    + rewrite Hx. cbn. now rewrite app_nil_r.
Qed.

(** [Width] is not silent: it writes to the standard output one line for
    each code point it skips, in text order, up to the point where it
    returns or panics. *)
Theorem Width_prints_skipped_runes (scale : F32.t) (text : list rune) :
  snd (Width f scale text) = filter (skip f) (before_boundary f text).
Proof.
  unfold Width. destruct text as [| c rest]; [reflexivity|].
  cbn [List.length Nat.eqb]. now rewrite Width_loop_stdout.
Qed.

Lemma SetColor_Width_loop (red green blue alpha scale : F32.t) (text : list rune) :
  forall width stdout,
    Width_loop (SetColor f red green blue alpha) scale text width stdout
    = Width_loop f scale text width stdout.
Proof.
  set (f' := SetColor f red green blue alpha).
  induction text as [| c rest IH]; intros width stdout; [reflexivity|].
  cbn [Width_loop]. change (skip f' c) with (skip f c).
  change (index f' c) with (index f c).
  destruct (skip f c); [apply IH|].
  destruct (index f c); [apply IH | reflexivity].
Qed.

Lemma SetColor_Printf_loop (red green blue alpha y scale : F32.t) (text : list rune) :
  forall x coords,
    Printf_loop (SetColor f red green blue alpha) y scale text x coords
    = Printf_loop f y scale text x coords.
Proof.
  set (f' := SetColor f red green blue alpha).
  induction text as [| c rest IH]; intros x coords; [reflexivity|].
  cbn [Printf_loop]. change (skip f' c) with (skip f c).
  change (index f' c) with (index f c).
  destruct (skip f c); [apply IH|].
  destruct (index f c) as [ch|]; [|reflexivity].
  change (Printf_glyph f' x y scale ch) with (Printf_glyph f x y scale ch).
  destruct (Printf_glyph f x y scale ch). apply IH.
Qed.

(** [SetColor] changes the colour and nothing else: the table, the atlas
    size and the GL names stay, so [Width] and the vertices of [Printf]
    are the same, and the colour [Printf] hands to the shader is the new
    one. *)
Theorem SetColor_changes_only_the_colour (red green blue alpha : F32.t)
    (x y scale : F32.t) (text : list rune) :
  Width (SetColor f red green blue alpha) scale text = Width f scale text
  /\ Printf_loop (SetColor f red green blue alpha) y scale text x []
     = Printf_loop f y scale text x []
  /\ setup_calls (SetColor f red green blue alpha)
     = [ Enable_BLEND; BlendFunc_SRC_ALPHA_ONE_MINUS_SRC_ALPHA;
         UseProgram (program f);
         Uniform4f_textColor (program f) (mkColor red green blue alpha) ]
  /\ forall coords,
      draw_calls (SetColor f red green blue alpha) coords = draw_calls f coords.
Proof.
  repeat split.
  - unfold Width. destruct (List.length text =? 0)%nat; [reflexivity|].
    apply SetColor_Width_loop.
  - apply SetColor_Printf_loop.
Qed.

End LayoutComposition.

(** * Further properties of the atlas builder *)

Section Float32.

Lemma shr_1_nonneg (mrs : shr_record) :
  0 <= shr_m mrs -> 0 <= shr_m (shr_1 mrs).
Proof.
  destruct mrs as [m r0 s0]. destruct m as [| p | p]; cbn; intros H;
    try destruct p; cbn; lia.
Qed.

Lemma iter_shr_1_nonneg (p : positive) :
  forall mrs, 0 <= shr_m mrs -> 0 <= shr_m (iter_pos shr_1 p mrs).
Proof.
  induction p as [p IH | p IH |]; cbn; intros mrs H.
  - apply IH, IH, shr_1_nonneg, H.
  - apply IH, IH, H.
  - apply shr_1_nonneg, H.
Qed.

Lemma shr_fexp_nonneg (m e : Z) (l : location) :
  0 <= m -> 0 <= shr_m (fst (shr_fexp F32.prec F32.emax m e l)).
Proof.
  intros H. unfold shr_fexp, shr.
  assert (H0 : 0 <= shr_m (shr_record_of_loc m l))
    by (destruct l as [| []]; exact H).
  destruct (fexp F32.prec F32.emax (Zdigits2 m + e) - e); cbn [fst]; trivial.
  now apply iter_shr_1_nonneg.
Qed.

Lemma round_nearest_even_nonneg (m : Z) (l : location) :
  0 <= m -> 0 <= round_nearest_even m l.
Proof.
  intros H. unfold round_nearest_even.
  destruct l as [| []]; try destruct (Z.even m); lia.
Qed.

Lemma binary_round_aux_not_nan (sx : bool) (m e : Z) (l : location) :
  0 <= m -> binary_round_aux F32.prec F32.emax sx m e l <> S754_nan.
Proof.
  intros H. unfold binary_round_aux.
  pose proof (shr_fexp_nonneg m e l H) as H1.
  destruct (shr_fexp F32.prec F32.emax m e l) as [mrs' e']. cbn [fst] in H1.
  pose proof (shr_fexp_nonneg _ e' loc_Exact
                (round_nearest_even_nonneg _ (loc_of_shr_record mrs') H1)) as H2.
  destruct (shr_fexp F32.prec F32.emax _ e' loc_Exact) as [mrs'' e''].
  cbn [fst] in H2.
  destruct (shr_m mrs'') as [| q | q]; try discriminate; [| lia].
  destruct (e'' <=? F32.emax - F32.prec); discriminate.
Qed.

(** The conversion of an integer to float32 is never a NaN. *)
Lemma of_int_not_nan (z : Z) : F32.of_int z <> S754_nan.
Proof.
  unfold F32.of_int, binary_normalize.
  destruct z as [| p | p]; [discriminate | |];
    unfold binary_round;
    destruct (shl_align _ _ _) as [mz ez];
    apply binary_round_aux_not_nan; lia.
Qed.

Lemma max_not_negative (acc v : F32.t) :
  not_negative acc -> v <> S754_nan -> not_negative (max acc v).
Proof.
  unfold max, F32.gt, SFltb.
  destruct acc as [[] | [] | | [] ma ea], v as [[] | [] | | [] mv ev];
    cbn; intros Ha Hv; try tauto; try congruence;
    repeat match goal with
           | |- context [match ?c with _ => _ end] => destruct c
           end; cbn; tauto.
Qed.

Lemma to_int_not_negative (v : F32.t) : not_negative v -> 0 <= F32.to_int v.
Proof.
  destruct v as [s | s | | s m e]; unfold not_negative, F32.to_int; try lia.
  destruct s; [tauto|]. intros _.
  destruct (0 <=? e) eqn:E.
  - apply Z.leb_le in E. apply Z.mul_nonneg_nonneg; [lia|].
    now apply Z.pow_nonneg.
  - apply Z.leb_gt in E. apply Z.quot_pos; [lia|].
    apply Z.pow_pos_nonneg; lia.
Qed.

End Float32.

Section Loops.

Variable ttf : TTF.
Variable scale : Z.

Lemma line_height_not_negative (chs : list rune) :
  forall lh0 lh,
    line_height_loop ttf scale chs lh0 = inr lh ->
    not_negative lh0 -> not_negative lh.
Proof.
  induction chs as [| ch rest IH]; intros lh0 lh H H0; cbn in H.
  - now inversion H; subst.
  - destruct (GlyphBounds ttf scale ch) as [[gBnd gAdv]|]; [|discriminate].
    eapply IH; [exact H|].
    apply max_not_negative; [exact H0 | apply of_int_not_nan].
Qed.

Lemma line_height_loop_missing (chs : list rune) (ch : rune) :
  In ch chs -> GlyphBounds ttf scale ch = None ->
  forall lh0,
    line_height_loop ttf scale chs lh0 = inl (Errorf "ttf face glyphBounds error").
Proof.
  intros Hin Hnone.
  induction chs as [| c rest IH]; intros lh0; [contradiction|].
  cbn [line_height_loop].
  destruct (GlyphBounds ttf scale c) as [[gBnd gAdv]|] eqn:E; [|reflexivity].
  destruct Hin as [-> | Hin]; [congruence | now apply IH].
Qed.

Lemma line_height_loop_total (chs : list rune) :
  all_bounded ttf scale chs = true ->
  forall lh0, exists lh, line_height_loop ttf scale chs lh0 = inr lh.
Proof.
  unfold all_bounded.
  induction chs as [| c rest IH]; intros Hb lh0; cbn [line_height_loop].
  - now exists lh0.
  - cbn [forallb] in Hb. apply andb_true_iff in Hb as [Hc Hrest].
    destruct (GlyphBounds ttf scale c) as [[gBnd gAdv]|]; [|discriminate].
    now apply IH.
Qed.

Variables atlasW lineHeight : F32.t.

Lemma glyph_loop_total (chs : list rune) :
  all_bounded ttf scale chs = true ->
  (forall d, DrawString ttf scale d = None) ->
  forall x y acc rgba,
  exists table rgba',
    glyph_loop ttf scale atlasW lineHeight chs x y acc rgba = (inr table, rgba').
Proof.
  unfold all_bounded. intros Hb Hd.
  induction chs as [| c rest IH]; intros x y acc rgba; cbn [glyph_loop].
  - now exists acc, rgba.
  - cbn [forallb] in Hb. apply andb_true_iff in Hb as [Hc Hrest].
    destruct (GlyphBounds ttf scale c) as [[gBnd gAdv]|]; [|discriminate].
    destruct (glyph_cell ttf scale gBnd) as [[gB gw] gh].
    destruct (next_cursor atlasW lineHeight x y gw) as [x' y'].
    rewrite Hd. now apply IH.
Qed.

(** The second loop and the image: one draw per appended entry, in the
    order of the code points, clipped to the entry's cell, and none of
    them failed. *)
Lemma glyph_loop_draws (chs : list rune) :
  forall x y acc rgba table rgba',
    glyph_loop ttf scale atlasW lineHeight chs x y acc rgba = (inr table, rgba') ->
    exists cells draws,
      table = acc ++ cells /\ rgba' = rgba ++ draws
      /\ map d_ch draws = chs
      /\ Forall2 draw_of_cell draws cells
      /\ Forall (fun d => DrawString ttf scale d = None) draws.
Proof.
  induction chs as [| ch rest IH]; intros x y acc rgba table rgba' H.
  - cbn in H. inversion H; subst. exists [], [].
    rewrite !app_nil_r. repeat split; constructor.
  - cbn [glyph_loop] in H.
    destruct (GlyphBounds ttf scale ch) as [[gBnd gAdv]|]; [|discriminate].
    destruct (glyph_cell ttf scale gBnd) as [[gB gw] gh].
    destruct (next_cursor atlasW lineHeight x y gw) as [x' y'].
    set (c := character.mk x y gw gh gAdv _ _) in H.
    set (d := mkDraw ch _ _) in H.
    destruct (DrawString ttf scale d) eqn:ED; [discriminate|].
    apply IH in H as (cells & draws & -> & -> & Hch & HF & HD).
    exists (c :: cells), (d :: draws). rewrite <- !app_assoc.
    split; [reflexivity|]. split; [reflexivity|].
    split; [cbn; now rewrite Hch|].
    split; constructor; trivial.
    split; [reflexivity | cbn; lia].
Qed.

End Loops.

Lemma wrap32_succ (z : Z) : wrap32 (wrap32 z + 1) = wrap32 (z + 1).
Proof.
  unfold wrap32.
  replace ((z + 2 ^ 31) mod 2 ^ 32 - 2 ^ 31 + 1 + 2 ^ 31)
    with ((z + 2 ^ 31) mod 2 ^ 32 + 1) by lia.
  rewrite Zplus_mod_idemp_l.
  replace (z + 2 ^ 31 + 1) with (z + 1 + 2 ^ 31) by lia. reflexivity.
Qed.

(** The capacity [high-low+1] handed to [make] is not negative for a
    range of fewer than 2^31 code points. *)
Lemma capacity_ok (low high : rune) :
  low <= high + 1 -> high - low + 1 < 2 ^ 31 ->
  (wrap32 (wrap32 (high - low) + 1) <? 0) = false.
Proof.
  intros H1 H2. rewrite wrap32_succ, wrap32_small by lia.
  apply Z.ltb_ge. lia.
Qed.

Section MorePacking.

Variables W L : Z.

(** Rows only go down: with a row pitch that is not negative, the cells
    are at or below the cursor and in non-decreasing order of y. *)
Lemma placed_rows_sorted (cs : list character.t) :
  0 <= L + margin ->
  forall x y,
    placed W L x y cs ->
    Forall (fun c => y <= character.y c) cs
    /\ StronglySorted (fun c1 c2 => character.y c1 <= character.y c2) cs.
Proof.
  intros HL. induction cs as [| c rest IH]; intros x y HP.
  - split; constructor.
  - inversion HP as [| ? ? ? ? Hx Hy Hfit Hrest | ? ? ? ? Hx Hy Hfit Hrest]; subst;
      destruct (IH _ _ Hrest) as [Hlow Hsorted]; split; constructor; trivial;
      try lia;
      (eapply Forall_impl; [| exact Hlow]); cbn beta; intros; lia.
Qed.


(** When the widths differ by no more than the margin, the test made with
    the width of the previous cell also holds for the next one, and every
    cell ends inside the width of the atlas. *)
Lemma placed_right_edges (wmin wmax : Z) (cs : list character.t) :
  wmax <= wmin + margin -> wmax <= W ->
  Forall (fun c => wmin <= character.width c <= wmax) cs ->
  forall x y,
    placed W L x y cs -> x + wmax <= W ->
    Forall (fun c => character.x c + character.width c <= W) cs.
Proof.
  intros Hband HW.
  induction cs as [| c rest IH]; intros Hw x y HP Hx; constructor.
  - apply placed_head in HP as [-> _]. inversion Hw; subst. lia.
  - inversion Hw as [| ? ? Hc Hw']; subst.
    inversion HP; subst; unfold margin in *; eapply IH; eauto; lia.
Qed.

End MorePacking.

(** What a successful run of [LoadTrueTypeFont] has done, with the image. *)
Lemma LoadTrueTypeFont_run_built (env : Env) (program r scale : Z)
    (low high : rune) (dir : Direction) (data : list Z) (ttf : TTF)
    (f : Font) (rgba : list drawcall) :
  ioutil_ReadAll env r = inr data ->
  truetype_Parse env data = inr ttf ->
  LoadTrueTypeFont_run env program r scale low high dir = (Return (inl f), rgba) ->
  exists lineHeight,
    line_height_loop ttf scale (rune_range low high) F32.zero = inr lineHeight
    /\ glyph_loop ttf scale (F32.of_int 1024) lineHeight (rune_range low high)
         margin margin [] [] = (inr (fontChar f), rgba)
    /\ f = mkFont (fontChar f) (gl_GenVertexArrays env) (gl_GenBuffers env)
                  program (gl_GenTextures env) white
                  (F32.of_int 1024) (F32.of_int 1024).
Proof.
  intros HR HP H. unfold LoadTrueTypeFont_run in H. rewrite HR, HP in H.
  destruct (wrap32 (wrap32 (high - low) + 1) <? 0); [discriminate|].
  destruct (high =? max_int32); [discriminate|].
  destruct (line_height_loop ttf scale (rune_range low high) F32.zero)
    as [err | lineHeight]; [discriminate|].
  destruct (glyph_loop ttf scale (F32.of_int 1024) lineHeight
              (rune_range low high) margin margin [] [])
    as [[err | table] rgba0] eqn:EG; [discriminate|].
  inversion H; subst. cbn [fontChar]. exists lineHeight.
  split; [reflexivity | split; [exact EG | reflexivity]].
Qed.

Lemma LoadTrueTypeFont_of_run (env : Env) (program r scale : Z)
    (low high : rune) (dir : Direction) :
  LoadTrueTypeFont_run env program r scale low high dir
  = (LoadTrueTypeFont env program r scale low high dir,
     snd (LoadTrueTypeFont_run env program r scale low high dir)).
Proof. unfold LoadTrueTypeFont. now destruct (LoadTrueTypeFont_run _ _ _ _ _ _ _). Qed.

Lemma LoadFont_built (env : Env) (file : string)
    (scale windowWidth windowHeight GLSLVersion : Z) (f : Font) :
  LoadFont env file scale windowWidth windowHeight GLSLVersion = Return (inl f) ->
  exists fd data ttf program,
    ioutil_ReadAll env fd = inr data
    /\ truetype_Parse env data = inr ttf
    /\ LoadTrueTypeFont env program fd scale 32 127 LeftToRight = Return (inl f).
Proof.
  unfold LoadFont. intros H.
  destruct (os_Open env file) as [err | fd]; [discriminate|].
  destruct (newProgram env GLSLVersion) as [err | program]; [discriminate|].
  destruct (ioutil_ReadAll env fd) as [err | data] eqn:HR.
  { unfold LoadTrueTypeFont, LoadTrueTypeFont_run in H. rewrite HR in H. discriminate. }
  destruct (truetype_Parse env data) as [err | ttf] eqn:HP.
  { unfold LoadTrueTypeFont, LoadTrueTypeFont_run in H. rewrite HR, HP in H. discriminate. }
  exists fd, data, ttf, program. auto.
Qed.

(** ** Outcomes of the build *)

(** No partial atlas: when the face has no bounds for some code point of
    the range, [LoadTrueTypeFont] returns the glyphBounds error from its
    first loop, before anything is drawn, wherever in the range the code
    point is. *)
Theorem missing_glyph_fails_before_drawing (env : Env) (program r scale : Z)
    (low high : rune) (dir : Direction) (data : list Z) (ttf : TTF) (ch : rune) :
  ioutil_ReadAll env r = inr data ->
  truetype_Parse env data = inr ttf ->
  low <= ch <= high -> high - low + 1 < 2 ^ 31 -> high < max_int32 ->
  GlyphBounds ttf scale ch = None ->
  LoadTrueTypeFont_run env program r scale low high dir
  = (Return (inr (Errorf "ttf face glyphBounds error")), []).
Proof.
  intros HR HP Hch Hsize Hmax Hnone. unfold LoadTrueTypeFont_run.
  rewrite HR, HP, capacity_ok by lia.
  replace (high =? max_int32) with false by (symmetry; apply Z.eqb_neq; lia).
  rewrite (line_height_loop_missing ttf scale _ ch); trivial.
  now apply rune_range_In.
Qed.

Lemma missing_glyph_fails_before_drawing_witness :
  LoadTrueTypeFont_run (env_of holed_ttf) 1 3 48 32 127 LeftToRight
  = (Return (inr (Errorf "ttf face glyphBounds error")), []).
Proof.
  apply (missing_glyph_fails_before_drawing (env_of holed_ttf) 1 3 48 32 127
           LeftToRight [] holed_ttf 127);
    try reflexivity; unfold max_int32; lia.
Defined.

(** The build succeeds, with one table entry per code point, whenever the
    stream reads and parses, the range holds fewer than 2^31 code points
    and ends below the largest int32, every code point has bounds and no
    draw fails. *)
Theorem LoadTrueTypeFont_succeeds (env : Env) (program r scale : Z)
    (low high : rune) (dir : Direction) (data : list Z) (ttf : TTF) :
  ioutil_ReadAll env r = inr data ->
  truetype_Parse env data = inr ttf ->
  low <= high + 1 -> high - low + 1 < 2 ^ 31 -> high < max_int32 ->
  all_bounded ttf scale (rune_range low high) = true ->
  (forall d, DrawString ttf scale d = None) ->
  exists f,
    LoadTrueTypeFont env program r scale low high dir = Return (inl f)
    /\ table_size f = high - low + 1.
Proof.
  intros HR HP Hlow Hsize Hmax Hb Hd.
  destruct (line_height_loop_total ttf scale _ Hb F32.zero) as [lh HL].
  destruct (glyph_loop_total ttf scale (F32.of_int 1024) lh _ Hb Hd
              margin margin [] []) as (table & rgba & HG).
  assert (E : exists f, LoadTrueTypeFont env program r scale low high dir
                        = Return (inl f)).
  { unfold LoadTrueTypeFont, LoadTrueTypeFont_run.
    rewrite HR, HP, capacity_ok by lia.
    replace (high =? max_int32) with false by (symmetry; apply Z.eqb_neq; lia).
    rewrite HL, HG. eexists. reflexivity. }
  destruct E as [f E]. exists f. split; [exact E|].
  destruct (LoadTrueTypeFont_built _ _ _ _ _ _ _ _ _ _ HR HP E) as (_ & _ & HF & _).
  unfold table_size. rewrite <- (Forall2_length HF), rune_range_length. lia.
Qed.

Lemma LoadTrueTypeFont_succeeds_witness :
  exists f,
    LoadTrueTypeFont (env_of sample_ttf) 1 3 48 32 127 LeftToRight = Return (inl f)
    /\ table_size f = 127 - 32 + 1.
Proof.
  apply (LoadTrueTypeFont_succeeds (env_of sample_ttf) 1 3 48 32 127 LeftToRight
           [] sample_ttf);
    try reflexivity; unfold max_int32; lia.
Defined.

(** An inverted range is not an error but a panic: with [high] more than
    one below [low], the capacity [high-low+1] of the table is negative
    and [make] panics, after the font was read and parsed. *)
Theorem inverted_range_panics (env : Env) (program r scale : Z)
    (low high : rune) (dir : Direction) (data : list Z) (ttf : TTF) :
  ioutil_ReadAll env r = inr data ->
  truetype_Parse env data = inr ttf ->
  - 2 ^ 31 <= high - low + 1 < 0 ->
  LoadTrueTypeFont_run env program r scale low high dir = (Panic, []).
Proof.
  intros HR HP Hrange. unfold LoadTrueTypeFont_run.
  rewrite HR, HP, wrap32_succ, wrap32_small by lia.
  replace (high - low + 1 <? 0) with true by (symmetry; apply Z.ltb_lt; lia).
  reflexivity.
Qed.

Lemma inverted_range_panics_witness :
  LoadTrueTypeFont_run (env_of sample_ttf) 1 3 48 32 30 LeftToRight = (Panic, []).
Proof.
  apply (inverted_range_panics (env_of sample_ttf) 1 3 48 32 30 LeftToRight
           [] sample_ttf); try reflexivity; lia.
Defined.

(** The empty range [high = low - 1] builds a font: its table is empty,
    nothing is drawn and no glyph is asked of the face. *)
Theorem empty_range_builds_empty_table (env : Env) (program r scale : Z)
    (low : rune) (dir : Direction) (data : list Z) (ttf : TTF) :
  ioutil_ReadAll env r = inr data ->
  truetype_Parse env data = inr ttf ->
  low < 2 ^ 31 ->
  LoadTrueTypeFont_run env program r scale low (low - 1) dir
  = (Return (inl (mkFont [] (gl_GenVertexArrays env) (gl_GenBuffers env) program
                         (gl_GenTextures env) white
                         (F32.of_int 1024) (F32.of_int 1024))), []).
Proof.
  intros HR HP Hlow. unfold LoadTrueTypeFont_run.
  rewrite HR, HP, capacity_ok by lia.
  replace (low - 1 =? max_int32) with false
    by (symmetry; apply Z.eqb_neq; unfold max_int32; lia).
  unfold rune_range. replace (low - 1 - low + 1) with 0 by lia.
  reflexivity.
Qed.

Lemma empty_range_builds_empty_table_witness :
  fontChar (font_of (fst (LoadTrueTypeFont_run (env_of sample_ttf) 1 3 48 32 (32 - 1)
                            LeftToRight))) = [].
Proof.
  rewrite (empty_range_builds_empty_table (env_of sample_ttf) 1 3 48 32 LeftToRight
             [] sample_ttf); try reflexivity; lia.
Defined.

(** Every glyph is drawn into its own cell: a successful build has made
    one draw per table entry, in the order of the code points, each
    clipped to the rectangle recorded in the entry and with its dot at the
    cell's left edge less the bearing, and no draw has failed. *)
Theorem draws_match_cells (env : Env) (program r scale : Z)
    (low high : rune) (dir : Direction) (data : list Z) (ttf : TTF) (f : Font) :
  ioutil_ReadAll env r = inr data ->
  truetype_Parse env data = inr ttf ->
  LoadTrueTypeFont env program r scale low high dir = Return (inl f) ->
  map d_ch (snd (LoadTrueTypeFont_run env program r scale low high dir))
  = rune_range low high
  /\ Forall2 draw_of_cell
       (snd (LoadTrueTypeFont_run env program r scale low high dir)) (fontChar f)
  /\ Forall (fun d => DrawString ttf scale d = None)
       (snd (LoadTrueTypeFont_run env program r scale low high dir)).
Proof.
  intros HR HP H.
  pose proof (LoadTrueTypeFont_of_run env program r scale low high dir) as E.
  rewrite H in E.
  destruct (LoadTrueTypeFont_run_built _ _ _ _ _ _ _ _ _ _ _ HR HP E)
    as (lh & _ & HG & _).
  apply glyph_loop_draws in HG as (cells & draws & Ht & Hd & Hch & HF & HD).
  cbn [app] in Ht, Hd. rewrite Hd, Ht. auto.
Qed.

Lemma draws_match_cells_witness :
  map d_ch (snd (LoadTrueTypeFont_run (env_of sample_ttf) 1 3 48 32 127 LeftToRight))
  = rune_range 32 127.
Proof.
  apply (draws_match_cells (env_of sample_ttf) 1 3 48 32 127 LeftToRight []
           sample_ttf sample_font); vm_compute; reflexivity.
Defined.

(** A built font is white, normalises texture coordinates by 1024 in
    both directions, and carries the program it was given and the names
    the GL driver handed out. *)
Theorem built_font_defaults (env : Env) (prog r scale : Z)
    (low high : rune) (dir : Direction) (f : Font) :
  LoadTrueTypeFont env prog r scale low high dir = Return (inl f) ->
  fcolor f = white
  /\ atlasWidth f = F32.of_int 1024 /\ atlasHeight f = F32.of_int 1024
  /\ program f = prog
  /\ vao f = gl_GenVertexArrays env /\ vbo f = gl_GenBuffers env
  /\ textureID f = gl_GenTextures env.
Proof.
  unfold LoadTrueTypeFont, LoadTrueTypeFont_run. intros H.
  destruct (ioutil_ReadAll env r) as [err | data]; [discriminate|].
  destruct (truetype_Parse env data) as [err | ttf]; [discriminate|].
  destruct (wrap32 (wrap32 (high - low) + 1) <? 0); [discriminate|].
  destruct (high =? max_int32); [discriminate|].
  destruct (line_height_loop ttf scale (rune_range low high) F32.zero)
    as [err | lineHeight]; [discriminate|].
  destruct (glyph_loop ttf scale (F32.of_int 1024) lineHeight
              (rune_range low high) margin margin [] [])
    as [[err | table] rgba]; [discriminate|].
  cbn [fst] in H. inversion H; subst. repeat split.
Qed.

Lemma built_font_defaults_witness :
  fcolor sample_font = white /\ atlasWidth sample_font = F32.of_int 1024.
Proof.
  destruct (built_font_defaults (env_of sample_ttf) 1 3 48 32 127 LeftToRight
              sample_font) as (Hc & Hw & _).
  - vm_compute. reflexivity.
  - now split.
Defined.

(** ** Invariants of the packing *)

(** Rows only go down, for any face at all: the line height is never
    negative (nor a NaN), so in a built font the table is in
    non-decreasing order of atlasY and no cell starts above y = 2. *)
Theorem rows_never_move_up (env : Env) (program r scale : Z)
    (low high : rune) (dir : Direction) (data : list Z) (ttf : TTF) (f : Font) :
  ioutil_ReadAll env r = inr data ->
  truetype_Parse env data = inr ttf ->
  LoadTrueTypeFont env program r scale low high dir = Return (inl f) ->
  StronglySorted (fun c1 c2 => character.y c1 <= character.y c2) (fontChar f)
  /\ Forall (fun c => margin <= character.y c) (fontChar f)
  /\ exists lineHeight,
      line_height_loop ttf scale (rune_range low high) F32.zero = inr lineHeight
      /\ not_negative lineHeight /\ 0 <= F32.to_int lineHeight.
Proof.
  intros HR HP H.
  destruct (LoadTrueTypeFont_built _ _ _ _ _ _ _ _ _ _ HR HP H)
    as (lh & HL & _ & HPl & _).
  assert (Hnn : not_negative lh)
    by (eapply line_height_not_negative; [exact HL | exact I]).
  pose proof (to_int_not_negative lh Hnn) as H0.
  destruct (placed_rows_sorted 1024 (F32.to_int lh) (fontChar f)
              ltac:(unfold margin; lia) margin margin HPl) as [Hlow Hsorted].
  split; [exact Hsorted|]. split; [exact Hlow|].
  exists lh. auto.
Qed.

Lemma rows_never_move_up_witness :
  Forall (fun c => margin <= character.y c) (fontChar (built large_ttf)).
Proof.
  destruct (rows_never_move_up (env_of large_ttf) 1 3 48 32 127 LeftToRight []
              large_ttf (built large_ttf)) as (_ & Hlow & _);
    try (vm_compute; reflexivity).
  exact Hlow.
Defined.



(** The wrap test uses the width of the cell just placed for the cell to
    come.  When the recorded widths differ by no more than the margin (a
    monospaced font, say) and none exceeds 1022, that is enough: every
    cell of a built font ends inside the width of the atlas. *)
Theorem similar_widths_fit_atlas_width (env : Env) (program r scale : Z)
    (low high : rune) (dir : Direction) (data : list Z) (ttf : TTF) (f : Font)
    (wmin wmax : Z) :
  ioutil_ReadAll env r = inr data ->
  truetype_Parse env data = inr ttf ->
  LoadTrueTypeFont env program r scale low high dir = Return (inl f) ->
  forallb (fun c => (wmin <=? character.width c) && (character.width c <=? wmax))
          (fontChar f) = true ->
  wmax <= wmin + margin -> wmax <= 1022 ->
  Forall (fun c => character.x c + character.width c <= 1024) (fontChar f).
Proof.
  intros HR HP H Hw Hband Hmax.
  destruct (LoadTrueTypeFont_built _ _ _ _ _ _ _ _ _ _ HR HP H)
    as (lh & _ & _ & HPl & _).
  apply (placed_right_edges 1024 (F32.to_int lh) wmin wmax (fontChar f))
    with (x := margin) (y := margin);
    trivial; try (unfold margin in *; lia).
  apply Forall_forall. intros c Hc. rewrite forallb_forall in Hw.
  specialize (Hw c Hc). apply andb_true_iff in Hw as [H1 H2].
  apply Z.leb_le in H1, H2. lia.
Qed.

Lemma similar_widths_fit_atlas_width_witness :
  Forall (fun c => character.x c + character.width c <= 1024) (fontChar sample_font).
Proof.
  apply (similar_widths_fit_atlas_width (env_of sample_ttf) 1 3 48 32 127
           LeftToRight [] sample_ttf sample_font 20 20);
    try (vm_compute; reflexivity); unfold margin; lia.
Defined.

(** * The line height as an integer maximum *)

Section Float32Exact.









End Float32Exact.



Example wide_glyph_passes_right_edge :
  nth_error (fontChar (built wide_M_ttf)) 45
  = Some (character.mk 992 2 40 30 1600 0 0).
Proof. vm_compute. reflexivity. Qed.



(** ** The packing invariant *)





(** * The whole of Printf *)

Section PrintfOutcome.

Variable f : Font.

Lemma retained_empty (text : list rune) :
  (List.length (retained f text) =? 0)%nat = negb (existsb (in_table f) text).
Proof.
  unfold retained. induction text as [| c rest IH]; [reflexivity|].
  cbn [filter existsb]. destruct (in_table f c); [reflexivity | exact IH].
Qed.

(** The whole of [Printf].  On the empty text it does nothing.  On a text
    with the boundary code point it panics in the loop, after it has
    enabled blending and bound the program.  On a non-empty text that
    retains no glyph (every code point skipped) it panics in
    [gl.Ptr(coords)], after it has also bound the vertex array, the
    texture and the buffer.  On any other text it uploads 16 bytes for
    each of the 6 vertices of every retained glyph, issues one draw call
    over them, restores the GL state and returns nil. *)
Theorem Printf_calls (x y scale : F32.t) (text : list rune) :
  Printf f x y scale text
  = (if (List.length text =? 0)%nat then (Return None, [])
     else if has_boundary f text then (Panic, setup_calls f)
     else if existsb (in_table f) text
     then (Return None,
           setup_calls f
           ++ draw_calls f (layout_spec f x y scale (retained f text)))
     else (Panic, setup_calls f ++ bind_calls f))
  /\ draw_calls f (layout_spec f x y scale (retained f text))
     = [ BindVertexArray (vao f); ActiveTexture_TEXTURE0;
         BindTexture_2D (textureID f); BindBuffer_ARRAY (vbo f);
         BufferData_ARRAY (96 * Z.of_nat (List.length (retained f text)))
                          (layout_spec f x y scale (retained f text));
         DrawArrays_TRIANGLES 0
           (wrap32 (6 * Z.of_nat (List.length (retained f text))));
         BindVertexArray 0; BindTexture_2D 0; UseProgram 0; Disable_BLEND ].
Proof.
  split.
  - unfold Printf. destruct (List.length text =? 0)%nat; [reflexivity|].
    rewrite Printf_loop_spec.
    destruct (has_boundary f text); [reflexivity|].
    pose proof (retained_empty text) as E.
    destruct (retained f text) as [| ch rest].
    + cbn in E. destruct (existsb (in_table f) text); [discriminate | reflexivity].
    + cbn in E. destruct (existsb (in_table f) text); [reflexivity | discriminate].
  - unfold draw_calls. rewrite layout_spec_length.
    replace (Z.of_nat (6 * List.length (retained f text)) * 16)
      with (96 * Z.of_nat (List.length (retained f text))) by lia.
    replace (Z.of_nat (6 * List.length (retained f text)))
      with (6 * Z.of_nat (List.length (retained f text))) by lia.
    reflexivity.
Qed.

Lemma Printf_outcome (x y scale : F32.t) (text : list rune) :
  fst (Printf f x y scale text)
  = if (List.length text =? 0)%nat then Return None
    else if has_boundary f text then Panic
    else if existsb (in_table f) text then Return None else Panic.
Proof.
  unfold Printf. destruct (List.length text =? 0)%nat; [reflexivity|].
  rewrite Printf_loop_spec.
  destruct (has_boundary f text); [reflexivity|].
  pose proof (retained_empty text) as E.
  destruct (retained f text) as [| ch rest]; cbn in E;
    destruct (existsb (in_table f) text); try discriminate; reflexivity.
Qed.

End PrintfOutcome.

(** ** The loaded font and the layout engine together *)

(** On a font loaded by [LoadFont] the table covers exactly the code
    points 32..127.  For a text without the code point 128, [Width]
    returns the sum of the advances of its code points in 32..127; [Printf]
    returns nil when the text is empty or has a code point in 32..127, and
    panics when the text is not empty and has none. *)
Theorem LoadFont_layout_outcomes (env : Env) (file : string)
    (size windowWidth windowHeight GLSLVersion : Z) (f : Font)
    (x y scale : F32.t) (text : list rune) :
  LoadFont env file size windowWidth windowHeight GLSLVersion = Return (inl f) ->
  forallb (fun c => negb (c =? 128)) text = true ->
  fst (Width f scale text) = Return (measure_spec f scale text)
  /\ fst (Printf f x y scale text)
     = (if (List.length text =? 0)%nat
           || existsb (fun c => (32 <=? c) && (c <=? 127)) text
        then Return None else Panic)
  /\ forall c, in_table f c = true <-> 32 <= c <= 127.
Proof.
  intros H Htext.
  destruct (LoadFont_built _ _ _ _ _ _ _ H) as (fd & data & ttf & program & HR & HP & HB).
  destruct (LoadTrueTypeFont_built _ _ _ _ _ _ _ _ _ _ HR HP HB) as (_ & _ & HF & _).
  assert (Hsize : table_size f = 96).
  { unfold table_size. rewrite <- (Forall2_length HF), rune_range_length. reflexivity. }
  assert (Hb : has_boundary f text = false).
  { assert (E : boundary f = 128) by (unfold boundary; now rewrite Hsize).
    unfold has_boundary. rewrite E. clear - Htext.
    induction text as [| c rest IH]; [reflexivity|].
    cbn [forallb existsb] in *. apply andb_true_iff in Htext as [Hc Hrest].
    rewrite IH by exact Hrest. rewrite Z.eqb_sym.
    now destruct (c =? 128). }
  assert (Hin : forall c, in_table f c = (32 <=? c) && (c <=? 127)).
  { intros c. unfold in_table, lowChar. rewrite Hsize. f_equal.
    destruct (Z.ltb_spec c (32 + 96)), (Z.leb_spec c 127); trivial; lia. }
  assert (He : existsb (in_table f) text
               = existsb (fun c => (32 <=? c) && (c <=? 127)) text).
  { clear - Hin. induction text as [| c rest IH]; [reflexivity|].
    cbn [existsb]. now rewrite Hin, IH. }
  split; [| split].
  - unfold measure_spec. now rewrite Width_result, Hb.
  - rewrite Printf_outcome, Hb, He.
    now destruct (List.length text =? 0)%nat.
  - intros c. rewrite Hin, andb_true_iff, !Z.leb_le. reflexivity.
Qed.

Lemma LoadFont_layout_outcomes_witness :
  fst (Printf sample_font F32.zero F32.zero (F32.of_int 1) [72; 105; 10; 233])
  = Return None
  /\ fst (Printf sample_font F32.zero F32.zero (F32.of_int 1) [10]) = Panic.
Proof.
  split.
  - apply (LoadFont_layout_outcomes (env_of sample_ttf) "font.ttf"
             48 800 600 330 sample_font F32.zero F32.zero (F32.of_int 1)
             [72; 105; 10; 233]);
      vm_compute; reflexivity.
  - apply (LoadFont_layout_outcomes (env_of sample_ttf) "font.ttf"
             48 800 600 330 sample_font F32.zero F32.zero (F32.of_int 1) [10]);
      vm_compute; reflexivity.
Defined.
